(** * UCSC event tracker: the classification pipeline of the server

    A shallow embedding of the server's pipeline: the campus date parser
    ([parseCampusDate]), the keyword classifier ([fallbackClassification]),
    the remote call ([classifyEvent]), the retry wrapper
    ([classifyWithRetry]) and the two routes ([POST /api/refresh],
    [GET /api/events]), followed by the properties of the design
    specification, each settled against these definitions.

    Conventions.
    - A JavaScript string is a [string]: a sequence of code units, of which
      the model covers those below 256.
    - Numbers that the code only ever uses as integers are in [Z]; [NaN] is
      [None] of an [option Z].  Values are exact: rounding to binary64 is
      not modelled (it starts at 2^53, far above every threshold used here).
    - A call that may throw returns a [Completion]; code that awaits the
      remote service or the sheet service, sleeps, logs or writes the cache
      runs in the monad [M] over a [State] that holds the cache and records
      these effects.
    - The remote classifier and the sheet service are functions from the
      number of the request to its answer: any behaviour of theirs is one
      such function. *)

From Stdlib Require Import ZArith List String Ascii Bool Lia QArith Btauto.
Import ListNotations.

Local Open Scope string_scope.
Local Open Scope Z_scope.

(* ------------------------------------------------------------------ *)
(** ** The host language: strings *)

Module JS.

Definition code (c : ascii) : Z := Z.of_nat (nat_of_ascii c).

Definition between (lo hi : Z) (c : ascii) : bool :=
  (lo <=? code c) && (code c <=? hi).

(** [\d] *)
Definition isDigit (c : ascii) : bool := between 48 57 c.

(** [[a-z0-9]] *)
Definition isLowerAlnum (c : ascii) : bool := between 97 122 c || isDigit c.

(** [\s], and what [trim] and [parseInt] strip: TAB, LF, VT, FF, CR,
    SPACE and NBSP. *)
Definition isWhiteSpace (c : ascii) : bool :=
  between 9 13 c || (code c =? 32) || (code c =? 160).

Definition toLowerCaseChar (c : ascii) : ascii :=
  if between 65 90 c || between 192 214 c || between 216 222 c
  then ascii_of_nat (nat_of_ascii c + 32)
  else c.

Fixpoint toLowerCase (s : string) : string :=
  match s with
  | EmptyString => EmptyString
  | String c r => String (toLowerCaseChar c) (toLowerCase r)
  end.

Fixpoint trimStart (s : string) : string :=
  match s with
  | EmptyString => EmptyString
  | String c r => if isWhiteSpace c then trimStart r else s
  end.

(** [trimEnd] keeps a character when it is not white space or when
    something is left after it. *)
Fixpoint trimEnd (s : string) : string :=
  match s with
  | EmptyString => EmptyString
  | String c r =>
      match trimEnd r with
      | EmptyString => if isWhiteSpace c then EmptyString else String c EmptyString
      | r' => String c r'
      end
  end.

Definition trim (s : string) : string := trimEnd (trimStart s).

(** [s.replace(/\s+/g, " ")]: every maximal run of white space becomes one
    space.  [inRun] tells that the previous character was white space. *)
Fixpoint collapseFrom (inRun : bool) (s : string) : string :=
  match s with
  | EmptyString => EmptyString
  | String c r =>
      if isWhiteSpace c
      then if inRun then collapseFrom true r
           else String " "%char (collapseFrom true r)
      else String c (collapseFrom false r)
  end.

Definition collapseWhiteSpace (s : string) : string := collapseFrom false s.

(** [s.split(sep)] for a separator of one character; the empty string
    splits into one empty part. *)
Fixpoint split (sep : ascii) (s : string) : list string :=
  match s with
  | EmptyString => [EmptyString]
  | String c r =>
      if Ascii.eqb c sep then EmptyString :: split sep r
      else match split sep r with
           | w :: ws => String c w :: ws
           | [] => [String c EmptyString]
           end
  end.

(** [parts.join(sep)] *)
Definition join (sep : string) (parts : list string) : string :=
  String.concat sep parts.

(** [parts.slice(from)] *)
Definition sliceFrom {A} (from : nat) (l : list A) : list A := skipn from l.

(** [text.match(/[a-z0-9]+/g) || []]: the maximal runs of lower-case
    letters and digits, left to right.  [pieces] cuts the text at every
    other character; the runs are the pieces that are not empty. *)
Fixpoint pieces (s : string) : list string :=
  match s with
  | EmptyString => [EmptyString]
  | String c r =>
      if isLowerAlnum c
      then match pieces r with
           | w :: ws => String c w :: ws
           | [] => [String c EmptyString]
           end
      else EmptyString :: pieces r
  end.

Definition matchWords (s : string) : list string :=
  filter (fun w => negb (String.eqb w EmptyString)) (pieces s).

(** *** Numbers read from strings *)

(** The longest prefix of decimal digits, and what follows it. *)
Fixpoint takeDigits (s : string) : string * string :=
  match s with
  | EmptyString => (EmptyString, EmptyString)
  | String c r =>
      if isDigit c
      then let '(ds, rest) := takeDigits r in (String c ds, rest)
      else (EmptyString, s)
  end.

Fixpoint decimalFrom (acc : Z) (ds : string) : Z :=
  match ds with
  | EmptyString => acc
  | String c r => decimalFrom (10 * acc + (code c - 48)) r
  end.

Definition decimalValue (ds : string) : Z := decimalFrom 0 ds.

(** An optional sign: its factor, and what follows it. *)
Definition takeSign (s : string) : Z * string :=
  match s with
  | String "-"%char r => (-1, r)
  | String "+"%char r => (1, r)
  | _ => (1, s)
  end.

(** [parseInt(s, 10)]: leading white space, an optional sign, then the
    longest run of digits; [None] is [NaN], the result when no digit is
    there.  With the radix given as 10, no [0x] prefix is recognised. *)
Definition parseInt (s : string) : option Z :=
  let '(sign, r) := takeSign (trimStart s) in
  match takeDigits r with
  | (EmptyString, _) => None
  | (ds, _) => Some (sign * decimalValue ds)
  end.

(** [parseInt(parts[i], 10)] where [parts[i]] may be [undefined], which
    reads as the text "undefined" and gives [NaN]. *)
Definition parseIntAt (part : option string) : option Z :=
  match part with
  | Some s => parseInt s
  | None => None
  end.

(** A Number as [Number(...)] returns it and [slice] takes it. *)
Inductive number : Type :=
| NaN
| Infinity (negative : bool)
| Finite (q : Q).

(** [m * 10^e] *)
Definition scale10 (m e : Z) : Q :=
  if 0 <=? e then inject_Z (m * 10 ^ e)
  else Qmake m (Z.to_pos (10 ^ (- e))).

Definition digitOfBase (base : Z) (c : ascii) : option Z :=
  let v := if isDigit c then code c - 48
           else if between 97 102 c then code c - 87
           else if between 65 70 c then code c - 55
           else 99 in
  if v <? base then Some v else None.

Fixpoint valueInBase (base acc : Z) (s : string) : option Z :=
  match s with
  | EmptyString => Some acc
  | String c r =>
      match digitOfBase base c with
      | Some v => valueInBase base (base * acc + v) r
      | None => None
      end
  end.

(** [0x], [0o] and [0b] literals: no sign, at least one digit. *)
Definition nonDecimalLiteral (s : string) : option Z :=
  match s with
  | String "0"%char (String p (String c r)) =>
      let digits := String c r in
      if Ascii.eqb p "x" || Ascii.eqb p "X" then valueInBase 16 0 digits
      else if Ascii.eqb p "o" || Ascii.eqb p "O" then valueInBase 8 0 digits
      else if Ascii.eqb p "b" || Ascii.eqb p "B" then valueInBase 2 0 digits
      else None
  | _ => None
  end.

(** The exponent part of a decimal literal, which must reach the end of
    the text; no exponent part is exponent 0. *)
Definition exponentPart (s : string) : option Z :=
  match s with
  | EmptyString => Some 0
  | String c r =>
      if Ascii.eqb c "e" || Ascii.eqb c "E"
      then let '(sign, r1) := takeSign r in
           match takeDigits r1 with
           | (EmptyString, _) => None
           | (ds, EmptyString) => Some (sign * decimalValue ds)
           | (_, _) => None
           end
      else None
  end.

(** [StrDecimalLiteral]: a sign, then [Infinity] or digits with an
    optional fraction and exponent. *)
Definition decimalLiteral (s : string) : number :=
  let '(sign, r) := takeSign s in
  if String.eqb r "Infinity" then Infinity (sign <? 0)
  else
    let '(ip, r1) := takeDigits r in
    let '(fp, r2) :=
      match r1 with
      | String "."%char r' => takeDigits r'
      | _ => (EmptyString, r1)
      end in
    if String.eqb ip EmptyString && String.eqb fp EmptyString then NaN
    else match exponentPart r2 with
         | Some e =>
             Finite (scale10 (sign * decimalValue (ip ++ fp))
                             (e - Z.of_nat (String.length fp)))
         | None => NaN
         end.

(** [Number(s)] for a string [s]: white space is trimmed, the empty text
    is 0, a numeric literal is its value, anything else is [NaN]. *)
Definition StringToNumber (s : string) : number :=
  let t := trim s in
  if String.eqb t EmptyString then Finite 0
  else match nonDecimalLiteral t with
       | Some n => Finite (inject_Z n)
       | None => decimalLiteral t
       end.

(** [ToIntegerOrInfinity], the reading [slice] makes of its bounds. *)
Inductive integerOrInfinity : Type :=
| MinusInfinity
| Integer (k : Z)
| PlusInfinity.

Definition ToIntegerOrInfinity (n : number) : integerOrInfinity :=
  match n with
  | NaN => Integer 0
  | Infinity true => MinusInfinity
  | Infinity false => PlusInfinity
  | Finite q => Integer (Z.quot (Qnum q) (Z.pos (Qden q)))
  end.

(** [l.slice(0, last)] *)
Definition slice0 {A} (l : list A) (last : number) : list A :=
  let len := Z.of_nat (List.length l) in
  match ToIntegerOrInfinity last with
  | MinusInfinity => []
  | Integer k =>
      let final := if k <? 0 then Z.max (len + k) 0 else Z.min k len in
      firstn (Z.to_nat final) l
  | PlusInfinity => l
  end.

(** *** Completions *)

(** An Error object as the retry logic reads it: [e.message], [e.status]
    and [e.response.status]. *)
Record Error : Type := mkError {
  name : string;
  message : string;
  status : option Z;
  response_status : option Z
}.

(** [new Error(msg)] *)
Definition newError (msg : string) : Error := mkError "Error" msg None None.

(** The error of [Date.prototype.toISOString] on an invalid date. *)
Definition RangeError_invalid_time : Error :=
  mkError "RangeError" "Invalid time value" None None.

Inductive Completion (A : Type) : Type :=
| Return (a : A)
| Throw (e : Error).

Arguments Return {A} a.
Arguments Throw {A} e.

End JS.

(* ------------------------------------------------------------------ *)
(** ** The host language: dates *)

(** What the code reads from the clock: the current instant (a time value,
    in milliseconds since the epoch), the calendar year
    [new Date().getFullYear()] and the offset of local time at a local time
    value. *)
Record Clock : Type := mkClock {
  now : Z;
  fullYear : Z;
  LocalTZA : Z -> Z
}.

Module Date.

(** A Date object holds a time value, or [NaN] when it is an Invalid
    Date. *)
Definition t : Type := option Z.

Definition msPerDay : Z := 86400000.
Definition maxTime : Z := 8640000000000000.

Definition DayFromYear (y : Z) : Z :=
  365 * (y - 1970) + (y - 1969) / 4 - (y - 1901) / 100 + (y - 1601) / 400.

Definition InLeapYear (y : Z) : bool :=
  ((y mod 4 =? 0) && negb (y mod 100 =? 0)) || (y mod 400 =? 0).

(** The days of the year before the first of month [mn] (0 to 11). *)
Definition daysBeforeMonth (leap : bool) (mn : Z) : Z :=
  nth (Z.to_nat mn) [0; 31; 59; 90; 120; 151; 181; 212; 243; 273; 304; 334] 0
  + (if leap && (2 <=? mn) then 1 else 0).

Definition MakeDay (year month date : Z) : Z :=
  let ym := year + month / 12 in
  let mn := month mod 12 in
  DayFromYear ym + daysBeforeMonth (InLeapYear ym) mn + date - 1.

Definition MakeTime (hour min sec ms : Z) : Z :=
  hour * 3600000 + min * 60000 + sec * 1000 + ms.

Definition MakeDate (day time : Z) : Z := day * msPerDay + time.

Definition MakeFullYear (y : Z) : Z :=
  if (0 <=? y) && (y <=? 99) then 1900 + y else y.

Definition UTC (clk : Clock) (t : Z) : Z := t - LocalTZA clk t.

Definition TimeClip (time : Z) : t :=
  if maxTime <? Z.abs time then None else Some time.

(** [new Date()] *)
Definition current (clk : Clock) : t := Some (now clk).

(** [new Date(y, m, d, hh, mm, ss)] in local time; [month] or [date] is
    [None] when the argument converts to [NaN], and the date is then
    invalid. *)
Definition local (clk : Clock) (y : Z) (month date : option Z) (hh mm ss : Z) : t :=
  match month, date with
  | Some m, Some d =>
      TimeClip (UTC clk (MakeDate (MakeDay (MakeFullYear y) m d)
                                  (MakeTime hh mm ss 0)))
  | _, _ => None
  end.

(** The civil date of a day number: year, month (1 to 12) and day of the
    month. *)
Definition civil (day : Z) : Z * Z * Z :=
  let z := day + 719468 in
  let era := z / 146097 in
  let doe := z - era * 146097 in
  let yoe := (doe - doe / 1460 + doe / 36524 - doe / 146096) / 365 in
  let doy := doe - (365 * yoe + yoe / 4 - yoe / 100) in
  let mp := (5 * doy + 2) / 153 in
  let d := doy - (153 * mp + 2) / 5 + 1 in
  let m := if mp <? 10 then mp + 3 else mp - 9 in
  let y := yoe + era * 400 + (if m <=? 2 then 1 else 0) in
  (y, m, d).

(** [n] written with [width] digits, the high ones dropped. *)
Fixpoint padded (width : nat) (n : Z) : string :=
  match width with
  | O => EmptyString
  | S w => padded w (n / 10) ++ String (ascii_of_nat (Z.to_nat (48 + n mod 10))) EmptyString
  end.

Definition yearText (y : Z) : string :=
  if (0 <=? y) && (y <=? 9999) then padded 4 y
  else (if y <? 0 then "-" else "+") ++ padded 6 (Z.abs y).

(** The text [toISOString] gives for a time value. *)
Definition isoText (tv : Z) : string :=
  let day := tv / msPerDay in
  let ms := tv mod msPerDay in
  let '(y, m, d) := civil day in
  yearText y ++ "-" ++ padded 2 m ++ "-" ++ padded 2 d ++ "T"
    ++ padded 2 (ms / 3600000) ++ ":" ++ padded 2 (ms / 60000 mod 60) ++ ":"
    ++ padded 2 (ms / 1000 mod 60) ++ "." ++ padded 3 (ms mod 1000) ++ "Z".

(** [d.toISOString()] throws a RangeError on an Invalid Date. *)
Definition toISOString (d : t) : JS.Completion string :=
  match d with
  | Some tv => JS.Return (isoText tv)
  | None => JS.Throw JS.RangeError_invalid_time
  end.

End Date.

(* ------------------------------------------------------------------ *)
(** ** Light date parsing for the fallback *)

(** What reading a property of the object literal [months] gives: its own
    number, [undefined], or a member that every object inherits from
    [Object.prototype] (a function or an object, never a number). *)
Inductive property : Type :=
| Own (n : Z)
| Undefined
| Inherited.

Definition months : list (string * Z) :=
  [("jan", 0); ("feb", 1); ("mar", 2); ("apr", 3); ("may", 4); ("jun", 5);
   ("jul", 6); ("aug", 7); ("sep", 8); ("sept", 8); ("oct", 9); ("nov", 10);
   ("dec", 11)].

Definition ObjectPrototype : list string :=
  ["constructor"; "__proto__"; "hasOwnProperty"; "isPrototypeOf";
   "propertyIsEnumerable"; "toLocaleString"; "toString"; "valueOf";
   "__defineGetter__"; "__defineSetter__"; "__lookupGetter__";
   "__lookupSetter__"].

Fixpoint ownProperty (table : list (string * Z)) (key : string) : option Z :=
  match table with
  | [] => None
  | (k, v) :: rest => if String.eqb k key then Some v else ownProperty rest key
  end.

(** [months[key]] *)
Definition monthsAt (key : string) : property :=
  match ownProperty months key with
  | Some n => Own n
  | None => if existsb (String.eqb key) ObjectPrototype then Inherited else Undefined
  end.

(** [m == null] *)
Definition isNullish (p : property) : bool :=
  match p with Undefined => true | _ => false end.

(** The Number a property converts to when it is passed to [new Date]. *)
Definition ToNumber (p : property) : option Z :=
  match p with Own n => Some n | _ => None end.

(** [x || 1] on a Number: [NaN] and 0 are falsy. *)
Definition orOne (x : option Z) : option Z :=
  match x with
  | Some n => if n =? 0 then Some 1 else Some n
  | None => Some 1
  end.

(** [isNaN(d)] *)
Definition isNaN (x : option Z) : bool :=
  match x with None => true | Some _ => false end.

(** [timeRaw.match(/^(\d{1,2})(?::(\d{2}))?\s*(am|pm)?$/)], part by part.
    Each choice of the pattern is forced by the next character, so no
    backtracking is lost: a second digit must belong to the first group, a
    colon must open the minutes, and after the white space only "am", "pm"
    or the end fits. *)

(** [(\d{1,2})]: one or two digits, and what follows them. *)
Definition takeHour (s : string) : option (string * string) :=
  match s with
  | String c1 r1 =>
      if JS.isDigit c1 then
        match r1 with
        | String c2 r2 =>
            if JS.isDigit c2 then Some (String c1 (String c2 EmptyString), r2)
            else Some (String c1 EmptyString, r1)
        | EmptyString => Some (String c1 EmptyString, r1)
        end
      else None
  | EmptyString => None
  end.

(** [(?::(\d{2}))?]: a colon with two digits, or nothing when no colon is
    next. *)
Definition takeMinutes (s : string) : option (option string * string) :=
  match s with
  | String ":"%char (String a (String b r)) =>
      if JS.isDigit a && JS.isDigit b
      then Some (Some (String a (String b EmptyString)), r)
      else None
  | String ":"%char _ => None
  | _ => Some (None, s)
  end.

(** [\s*(am|pm)?$] *)
Definition takeMeridiem (s : string) : option (option string) :=
  let r := JS.trimStart s in
  if String.eqb r EmptyString then Some None
  else if String.eqb r "am" || String.eqb r "pm" then Some (Some r)
  else None.

(** The three captures, or [None] when the text does not match. *)
Definition matchTime (timeRaw : string)
  : option (string * option string * option string) :=
  match takeHour timeRaw with
  | Some (g1, r1) =>
      match takeMinutes r1 with
      | Some (g2, r2) =>
          match takeMeridiem r2 with
          | Some mer => Some (g1, g2, mer)
          | None => None
          end
      | None => None
      end
  | None => None
  end.

(** [mer === w] *)
Definition merIs (mer : option string) (w : string) : bool :=
  match mer with Some x => String.eqb x w | None => false end.

(** The two meridiem adjustments, in the order the code makes them. *)
Definition meridiem (mer : option string) (hh : Z) : Z :=
  let hh1 := if merIs mer "pm" && (hh <? 12) then hh + 12 else hh in
  if merIs mer "am" && (hh1 =? 12) then 0 else hh1.

(** The hour and minute read from [timeRaw]; 9:00 when it is empty or does
    not match.  [parseInt] of a capture of digits is the value of the
    digits. *)
Definition timeOf (timeRaw : string) : Z * Z :=
  if String.eqb timeRaw EmptyString then (9, 0)
  else match matchTime timeRaw with
       | Some (g1, g2, mer) =>
           let hh := JS.decimalValue g1 in
           let mm := match g2 with Some t => JS.decimalValue t | None => 0 end in
           (meridiem mer hh, mm)
       | None => (9, 0)
       end.

(** [s.trim().toLowerCase().replace(/\s+/g, " ").split(" ")] *)
Definition partsOf (s : string) : list string :=
  JS.split " "%char (JS.collapseWhiteSpace (JS.toLowerCase (JS.trim s))).

(** [months[parts[0]]] *)
Definition monthOf (parts : list string) : property :=
  match nth_error parts 0 with
  | Some key => monthsAt key
  | None => Undefined
  end.

(** [parseInt(parts[1], 10) || 1] *)
Definition dayOf (parts : list string) : option Z :=
  orOne (JS.parseIntAt (nth_error parts 1)).

(** [parts.slice(2).join(" ")] *)
Definition timeRawOf (parts : list string) : string :=
  JS.join " " (JS.sliceFrom 2 parts).

Definition parseCampusDate (clk : Clock) (s : string) : Date.t :=
  if String.eqb s EmptyString then Date.current clk
  else
    let parts := partsOf s in
    let y := fullYear clk in
    let m := monthOf parts in
    let d := dayOf parts in
    let '(hh, mm) := timeOf (timeRawOf parts) in
    if isNullish m || isNaN d then Date.current clk
    else Date.local clk y (ToNumber m) d hh mm 0.

(* ------------------------------------------------------------------ *)
(** ** Events and classifications *)

(** One sheet row as an event object ([rowToEvent] builds it). *)
Record RawEvent : Type := mkEvent {
  title : string;
  date : string;
  time : string;
  location : string;
  org : string;
  description : string;
  url : string
}.

(** The object [fallbackClassification] returns. *)
Record Classification : Type := mkClassification {
  category : string;
  tags : list string;
  audience : list string;
  normalized_date : string;
  location_type : string;
  confidence : Q;
  rationale : string
}.

#[local] Set Warnings "-register-all".

(** A value read from JSON text, which is what the remote classifier
    returns, and the form in which a classification travels on. *)
Inductive Json : Type :=
| JNull
| JBool (b : bool)
| JNum (q : Q)
| JStr (s : string)
| JArr (items : list Json)
| JObj (fields : list (string * Json)).

Definition toJson (c : Classification) : Json :=
  JObj [("category", JStr (category c));
        ("tags", JArr (map JStr (tags c)));
        ("audience", JArr (map JStr (audience c)));
        ("normalized_date", JStr (normalized_date c));
        ("location_type", JStr (location_type c));
        ("confidence", JNum (confidence c));
        ("rationale", JStr (rationale c))].

(* ------------------------------------------------------------------ *)
(** ** Fallback classification *)

Section Fallback.

(** [tokens.has(w)] *)
Variable has : string -> bool.

Definition fallbackCategory : string :=
  if has "workshop" || has "tutorial" || has "bootcamp" then "Workshop"
  else if has "career" || has "recruit" || has "internship" then "Career"
  else if has "game" || has "party" || has "mixer" || has "social" then "Social"
  else if has "club" || has "org" || has "meeting" then "Club/Org"
  else if has "volunteer" || has "service" then "Volunteer"
  else if has "lecture" || has "seminar" || has "talk" || has "colloquium" then "Academic"
  else if has "basketball" || has "soccer" || has "run" || has "tournament" then "Sports"
  else if has "heritage" || has "cultural" || has "festival" || has "film" then "Cultural"
  else "Other".

(** [if (cond) list.push(x)] *)
Definition pushIf (cond : bool) (x : string) (l : list string) : list string :=
  if cond then l ++ [x] else l.

Definition fallbackAudience : list string :=
  let audience := ["Undergrad"] in
  let audience := pushIf (has "graduate" || has "phd" || has "ms") "Grad" audience in
  let audience := pushIf (has "alumni") "Alumni" audience in
  let audience := pushIf (has "staff") "Staff" audience in
  let audience := pushIf (has "public" || has "community") "Public" audience in
  audience.

Definition fallbackLocationType : string :=
  if has "zoom" || has "virtual" || has "online" then "Virtual"
  else if has "hybrid" then "Hybrid"
  else if has "campus" || has "hall" || has "center" || has "theater" || has "lab"
       then "On-campus"
       else "Off-campus".

Definition fallbackTags (category : string) : list string :=
  let tags := [] in
  let tags := pushIf (negb (String.eqb category "Other")) (JS.toLowerCase category) tags in
  let tags := pushIf (has "free") "free" tags in
  let tags := pushIf (has "food" || has "pizza") "food" tags in
  let tags := pushIf (has "resume") "resume" tags in
  let tags := pushIf (has "tech" || has "cs" || has "gds") "tech" tags in
  tags.

End Fallback.

(** [Array.from(new Set(l))]: the first occurrence of each element, in
    order.  [seen] holds the elements already kept. *)
Fixpoint uniqueFrom (seen : list string) (l : list string) : list string :=
  match l with
  | [] => []
  | x :: r =>
      if existsb (String.eqb x) seen then uniqueFrom seen r
      else x :: uniqueFrom (x :: seen) r
  end.

Definition unique (l : list string) : list string := uniqueFrom [] l.

(** The token set of an event: the words of title, description and
    location in lower case. *)
Definition tokensOf (ev : RawEvent) : list string :=
  let text := JS.toLowerCase (title ev ++ " " ++ description ev ++ " " ++ location ev) in
  JS.matchWords text.

Definition hasToken (ev : RawEvent) (w : string) : bool :=
  existsb (String.eqb w) (tokensOf ev).

Definition fallbackRationale : string :=
  "Fallback classification used due to API quota or transient errors.".

Definition fallbackClassification (clk : Clock) (ev : RawEvent)
  : JS.Completion Classification :=
  let has := hasToken ev in
  let category := fallbackCategory has in
  let audience := fallbackAudience has in
  let location_type := fallbackLocationType has in
  match Date.toISOString (parseCampusDate clk (date ev)) with
  | JS.Throw e => JS.Throw e
  | JS.Return normalized_date =>
      let tags := fallbackTags has category in
      JS.Return {|
        category := category;
        tags := firstn 8 (unique tags);
        audience := firstn 3 audience;
        normalized_date := normalized_date;
        location_type := location_type;
        confidence := 1 # 4;
        rationale := fallbackRationale
      |}
  end.

(** [rowToEvent(row)]: the cells of a row by position, a missing or empty
    cell read as the empty string. *)
Definition cell (row : list string) (i : nat) : string := nth i row EmptyString.

Definition rowToEvent (row : list string) : RawEvent :=
  {| title := cell row 0;
     date := cell row 1;
     time := EmptyString;
     location := cell row 2;
     org := cell row 3;
     description := cell row 4;
     url := cell row 5 |}.

(* ------------------------------------------------------------------ *)
(** ** The JSON schema for strict output *)

(** The part of JSON Schema that [classificationSchema] uses. *)
Inductive Schema : Type :=
| SString (enum : option (list string)) (format : option string)
| SNumber (minimum maximum : option Q)
| SArray (items : Schema) (minItems maxItems : option nat)
| SObject (additionalProperties : bool)
          (properties : list (string * Schema)) (required : list string).

Definition categories : list string :=
  ["Academic"; "Career"; "Social"; "Cultural"; "Sports";
   "Workshop"; "Volunteer"; "Club/Org"; "Admin/Advising"; "Other"].

Definition audiences : list string :=
  ["Undergrad"; "Grad"; "Alumni"; "Staff"; "Public"].

Definition location_types : list string :=
  ["On-campus"; "Off-campus"; "Virtual"; "Hybrid"].

(** The object the request names as its output format. *)
Record OutputFormat : Type := mkFormat {
  name : string;
  schema : Schema
}.

Definition classificationSchema : OutputFormat :=
  {| name := "EventClassification";
     schema :=
       SObject false
         [("category", SString (Some categories) None);
          ("tags", SArray (SString None None) None (Some 8%nat));
          ("audience", SArray (SString (Some audiences) None) (Some 1%nat) (Some 3%nat));
          ("normalized_date", SString None (Some "date-time"));
          ("location_type", SString (Some location_types) None);
          ("confidence", SNumber (Some 0%Q) (Some 1%Q));
          ("rationale", SString None None)]
         ["category"; "tags"; "audience"; "normalized_date";
          "location_type"; "confidence"; "rationale"] |}.

Definition atLeast (bound : option nat) (n : nat) : bool :=
  match bound with Some b => Nat.leb b n | None => true end.

Definition atMost (bound : option nat) (n : nat) : bool :=
  match bound with Some b => Nat.leb n b | None => true end.

Definition hasField (fields : list (string * Json)) (key : string) : bool :=
  existsb (fun kv => String.eqb (fst kv) key) fields.

(** Validation of a value against a schema: the type, the enumeration,
    the bounds on size and value, the required fields and the ban on
    further properties.  [format] is an annotation and decides nothing. *)
Fixpoint validate (sc : Schema) (j : Json) {struct sc} : bool :=
  match sc, j with
  | SString enum _, JStr s =>
      match enum with
      | Some values => existsb (String.eqb s) values
      | None => true
      end
  | SNumber lo hi, JNum q =>
      match lo with Some l => Qle_bool l q | None => true end
      && match hi with Some h => Qle_bool q h | None => true end
  | SArray items lo hi, JArr l =>
      forallb (validate items) l
      && atLeast lo (List.length l) && atMost hi (List.length l)
  | SObject additional properties required, JObj fields =>
      forallb (hasField fields) required
      && forallb
           (fun kv : string * Json =>
              (fix field (ps : list (string * Schema)) : bool :=
                 match ps with
                 | [] => additional
                 | (k, s) :: rest =>
                     if String.eqb k (fst kv) then validate s (snd kv)
                     else field rest
                 end) properties)
           fields
  | _, _ => false
  end.

(* ------------------------------------------------------------------ *)
(** ** Effects *)

(** One answer of the remote classifier to [openai.responses.create]:
    the call is rejected with an error, or it resolves with a response
    whose [output_text] is given by what [JSON.parse] makes of it ([None]
    when [JSON.parse] throws). *)
Inductive RemoteOutcome : Type :=
| Rejects (e : JS.Error)
| Responds (parsed : option Json).

(** A remote classifier: its answer to the k-th request, given the
    prompt. *)
Definition Remote : Type := nat -> string -> RemoteOutcome.

(** One answer of the sheet service to [spreadsheets.values.get]: an
    error, or [data] with its optional [values]. *)
Inductive SheetOutcome : Type :=
| SheetFails (e : JS.Error)
| SheetData (values : option (list (list string))).

(** The sheet service: its answer to the k-th request, given the sheet
    identifier and the range. *)
Definition Sheets : Type := nat -> option string -> string -> SheetOutcome.

(** [{ ...ev, classification: cls }]; [classification] is [None] when
    [cls] is [undefined]. *)
Record ClassifiedEvent : Type := mkClassified {
  event : RawEvent;
  classification : option Json
}.

(** The state the server runs in: its cache, and a record of what it did
    to the world (requests to the classifier, sleeps in order, requests
    to the sheet service, errors written to the console). *)
Record State : Type := mkState {
  cachedEvents : list ClassifiedEvent;
  calls : nat;
  slept : list Z;
  fetches : nat;
  logged : list JS.Error
}.

Definition M (A : Type) : Type := State -> JS.Completion A * State.

Definition ret {A} (a : A) : M A := fun st => (JS.Return a, st).

Definition throw {A} (e : JS.Error) : M A := fun st => (JS.Throw e, st).

Definition bind {A B} (c : M A) (k : A -> M B) : M B :=
  fun st =>
    match c st with
    | (JS.Return a, st') => k a st'
    | (JS.Throw e, st') => (JS.Throw e, st')
    end.

(** [try { c } catch (e) { handler }] *)
Definition tryCatch {A} (c : M A) (handler : JS.Error -> M A) : M A :=
  fun st =>
    match c st with
    | (JS.Return a, st') => (JS.Return a, st')
    | (JS.Throw e, st') => handler e st'
    end.

(** A call that may throw, made inside the monad. *)
Definition lift {A} (c : JS.Completion A) : M A := fun st => (c, st).

Declare Scope js_scope.
Delimit Scope js_scope with js.
Notation "x <- c ;; k" := (bind c (fun x => k))
  (at level 61, c at next level, right associativity) : js_scope.
Notation "c ;; k" := (bind c (fun _ => k))
  (at level 61, right associativity) : js_scope.
Local Open Scope js_scope.

(** The four ways the code changes the state. *)
Definition withCall (st : State) : State :=
  mkState (cachedEvents st) (S (calls st)) (slept st) (fetches st) (logged st).

Definition withSleep (ms : Z) (st : State) : State :=
  mkState (cachedEvents st) (calls st) (slept st ++ [ms]) (fetches st) (logged st).

Definition withFetch (st : State) : State :=
  mkState (cachedEvents st) (calls st) (slept st) (S (fetches st)) (logged st).

Definition withLog (e : JS.Error) (st : State) : State :=
  mkState (cachedEvents st) (calls st) (slept st) (fetches st) (logged st ++ [e]).

Definition withCache (results : list ClassifiedEvent) (st : State) : State :=
  mkState results (calls st) (slept st) (fetches st) (logged st).

(** [await sleep(ms)] *)
Definition sleep (ms : Z) : M unit := fun st => (JS.Return tt, withSleep ms st).

(** [console.error(e)] *)
Definition console_error (e : JS.Error) : M unit :=
  fun st => (JS.Return tt, withLog e st).

(** [cachedEvents = results] *)
Definition setCachedEvents (results : list ClassifiedEvent) : M unit :=
  fun st => (JS.Return tt, withCache results st).

(* ------------------------------------------------------------------ *)
(** ** The remote classification and its retry wrapper *)

Definition newline : string := String (ascii_of_nat 10) EmptyString.

Definition quote : string := String (ascii_of_nat 34) EmptyString.

(** The prompt of [classifyEvent], trimmed. *)
Definition promptOf (ev : RawEvent) : string :=
  JS.trim
    (newline
     ++ "You are classifying UCSC campus events for a student website." ++ newline
     ++ "Return ONLY valid JSON that matches the provided JSON schema." ++ newline
     ++ "- Normalize date/time to ISO 8601 in America/Los_Angeles." ++ newline
     ++ "- If only a date exists, default time to 09:00:00." ++ newline
     ++ "- Detect location_type from " ++ quote
     ++ "Zoom/virtual/online/hybrid/campus" ++ quote ++ " hints." ++ newline
     ++ "- Tags should be concise (<=8), useful, and lowercase." ++ newline
     ++ newline
     ++ "Event:" ++ newline
     ++ "Title: " ++ title ev ++ newline
     ++ "Description: " ++ description ev ++ newline
     ++ "When: " ++ date ev ++ " " ++ time ev ++ newline
     ++ "Where: " ++ location ev ++ newline
     ++ "Org: " ++ org ev ++ newline
     ++ "URL: " ++ url ev ++ newline).

Section Pipeline.

Variable clk : Clock.
Variable openai : Remote.

(** [await openai.responses.create(...)], then [JSON.parse] of the
    output text, a failure of which is rethrown as [bad_json]. *)
Definition classifyEvent (ev : RawEvent) : M Json :=
  fun st =>
    match openai (calls st) (promptOf ev) with
    | Rejects e => (JS.Throw e, withCall st)
    | Responds (Some j) => (JS.Return j, withCall st)
    | Responds None => (JS.Throw (JS.newError "bad_json"), withCall st)
    end.

(** [e?.status || e?.response?.status] *)
Definition statusOf (e : JS.Error) : option Z :=
  match JS.status e with
  | Some s => if s =? 0 then JS.response_status e else Some s
  | None => JS.response_status e
  end.

Definition is429 (e : JS.Error) : bool :=
  match statusOf e with Some s => s =? 429 | None => false end.

Definition is5xx (e : JS.Error) : bool :=
  match statusOf e with Some s => (500 <=? s) && (s <? 600) | None => false end.

(** [is429 || is5xx || e.message === "bad_json"] *)
Definition retryable (e : JS.Error) : bool :=
  is429 e || is5xx e || String.eqb (JS.message e) "bad_json".

(** The loop of [classifyWithRetry]: [iterations] is the number of times
    the loop test [attempt <= maxRetries] still holds, that is
    [maxRetries + 1 - attempt].  When the loop ends without a [return],
    the function returns [undefined], here [None]. *)
Fixpoint retryLoop (ev : RawEvent) (maxRetries : Z) (iterations : nat)
         (attempt delay : Z) : M (option Json) :=
  match iterations with
  | O => ret None
  | S iterations' =>
      tryCatch
        (j <- classifyEvent ev ;; ret (Some j))
        (fun e =>
           if (attempt <? maxRetries) && retryable e
           then sleep delay ;;
                retryLoop ev maxRetries iterations' (attempt + 1) (delay * 2)
           else c <- lift (fallbackClassification clk ev) ;;
                ret (Some (toJson c)))
  end.

Definition classifyWithRetry (ev : RawEvent) (maxRetries : Z) : M (option Json) :=
  retryLoop ev maxRetries (Z.to_nat (maxRetries + 1)) 0 1500.

(** The default of the parameter [maxRetries]. *)
Definition defaultMaxRetries : Z := 2.

End Pipeline.

(* ------------------------------------------------------------------ *)
(** ** Routes *)

(** The environment variables the routes read. *)
Record Env : Type := mkEnv {
  REFRESH_TOKEN : option string;
  SHEET_ID : option string;
  SHEET_RANGE : option string;
  MAX_EVENTS : option string
}.

(** The request of [POST /api/refresh]: [req.query.token]. *)
Record Request : Type := mkRequest {
  query_token : option string
}.

Record Response : Type := mkResponse {
  statusCode : Z;
  body : Json
}.

(** [x] when it is truthy: set and not empty. *)
Definition truthy (x : option string) : option string :=
  match x with
  | Some s => if String.eqb s EmptyString then None else Some s
  | None => None
  end.

(** [token !== secret] *)
Definition differs (token : option string) (secret : string) : bool :=
  match token with
  | Some t => negb (String.eqb t secret)
  | None => true
  end.

Definition countOf (n : nat) : Json := JNum (inject_Z (Z.of_nat n)).

Definition unauthorized : Response :=
  mkResponse 401 (JObj [("ok", JBool false); ("error", JStr "unauthorized")]).

Definition refreshed (count : nat) : Response :=
  mkResponse 200 (JObj [("ok", JBool true); ("count", countOf count)]).

(** [e?.message || "unknown_error"] *)
Definition messageOf (e : JS.Error) : string :=
  if String.eqb (JS.message e) EmptyString then "unknown_error" else JS.message e.

Definition failed (e : JS.Error) : Response :=
  mkResponse 500 (JObj [("ok", JBool false); ("error", JStr (messageOf e))]).

Section Routes.

Variable clk : Clock.
Variable openai : Remote.
Variable sheets : Sheets.
Variable env : Env.

(** [await sheets.spreadsheets.values.get(...)], then [data.values]. *)
Definition getValues (range : string) : M (option (list (list string))) :=
  fun st =>
    match sheets (fetches st) (SHEET_ID env) range with
    | SheetFails e => (JS.Throw e, withFetch st)
    | SheetData values => (JS.Return values, withFetch st)
    end.

(** [Number(process.env.MAX_EVENTS || rawEvents.length)] *)
Definition maxEvents (length : nat) : JS.number :=
  match truthy (MAX_EVENTS env) with
  | Some s => JS.StringToNumber s
  | None => JS.Finite (inject_Z (Z.of_nat length))
  end.

(** The loop over [toClassify], which pushes onto [results]. *)
Fixpoint classifyAll (toClassify : list RawEvent) (results : list ClassifiedEvent)
  : M (list ClassifiedEvent) :=
  match toClassify with
  | [] => ret results
  | ev :: rest =>
      cls <- classifyWithRetry clk openai ev defaultMaxRetries ;;
      classifyAll rest (results ++ [mkClassified ev cls])
  end.

(** [process.env.SHEET_RANGE || "Events!A2:G"] *)
Definition rangeOf : string :=
  match truthy (SHEET_RANGE env) with
  | Some r => r
  | None => "Events!A2:G"
  end.

(** [data.values || []] *)
Definition rowsOf (values : option (list (list string))) : list (list string) :=
  match values with Some rows => rows | None => [] end.

(** The events the route classifies, given the values of the sheet: the
    rows as events, up to [max]. *)
Definition toClassifyOf (values : option (list (list string))) : list RawEvent :=
  let rows := rowsOf values in
  let rawEvents := map rowToEvent rows in
  let max := maxEvents (List.length rawEvents) in
  JS.slice0 rawEvents max.

(** The body of the [try] block of [POST /api/refresh]. *)
Definition refreshBody : M Response :=
  values <- getValues rangeOf ;;
  let toClassify := toClassifyOf values in
  results <- classifyAll toClassify [] ;;
  setCachedEvents results ;;
  ret (refreshed (List.length results)).

(** The check of the shared secret: [process.env.REFRESH_TOKEN &&
    req.query.token !== process.env.REFRESH_TOKEN]. *)
Definition rejected (req : Request) : bool :=
  match truthy (REFRESH_TOKEN env) with
  | Some secret => differs (query_token req) secret
  | None => false
  end.

(** [POST /api/refresh] *)
Definition postRefresh (req : Request) : M Response :=
  if rejected req then ret unauthorized
  else tryCatch refreshBody (fun e => console_error e ;; ret (failed e)).

(** [GET /api/events]: the cache as it is. *)
Definition getEvents (st : State) : list ClassifiedEvent := cachedEvents st.

End Routes.

(** The state of a server that has just started. *)
Definition initial : State := mkState [] 0 [] 0 [].

(* ================================================================== *)
(** * The terms of the properties *)

(** ** Checks, rule lists and measures *)

Definition inList (l : list string) (x : string) : bool := existsb (String.eqb x) l.

Definition isLowerCase (s : string) : bool := String.eqb (JS.toLowerCase s) s.

Fixpoint distinct (l : list string) : bool :=
  match l with
  | [] => true
  | x :: r => negb (inList r x) && distinct r
  end.

(** The invariants of a classification that do not concern its date:
    closed sets for category, audience and location type, at most 8
    distinct lower-case tags, one to three audience entries. *)
Definition closedSets (c : Classification) : bool :=
  inList categories (category c)
  && distinct (tags c) && forallb isLowerCase (tags c)
  && Nat.leb (List.length (tags c)) 8
  && Nat.leb 1 (List.length (audience c)) && Nat.leb (List.length (audience c)) 3
  && forallb (inList audiences) (audience c)
  && inList location_types (location_type c).

(** The ordered rule list of the category, in the words of the design:
    keyword groups with their label, the first group that has a keyword
    among the tokens decides. *)
Definition categoryRules : list (list string * string) :=
  [(["workshop"; "tutorial"; "bootcamp"], "Workshop");
   (["career"; "recruit"; "internship"], "Career");
   (["game"; "party"; "mixer"; "social"], "Social");
   (["club"; "org"; "meeting"], "Club/Org");
   (["volunteer"; "service"], "Volunteer");
   (["lecture"; "seminar"; "talk"; "colloquium"], "Academic");
   (["basketball"; "soccer"; "run"; "tournament"], "Sports");
   (["heritage"; "cultural"; "festival"; "film"], "Cultural")].


(** The error a remote answer makes [classifyEvent] throw, if any. *)
Definition failureOf (o : RemoteOutcome) : option JS.Error :=
  match o with
  | Rejects e => Some e
  | Responds None => Some (JS.newError "bad_json")
  | Responds (Some _) => None
  end.

(** The first [k] delays of a backoff that starts at [d]. *)
Fixpoint backoff (d : Z) (k : nat) : list Z :=
  match k with
  | O => []
  | S k' => d :: backoff (d * 2) k'
  end.

(** The state after [k] requests to the classifier with the backoff
    sleeps between them. *)
Definition afterAttempts (delay : Z) (k : nat) (st : State) : State :=
  mkState (cachedEvents st) (k + calls st) (slept st ++ backoff delay (k - 1))
          (fetches st) (logged st).

(** The shape of an ISO 8601 date-time in UTC as [toISOString] writes it:
    a year of four digits, or of six digits after a sign, then
    [-MM-DDTHH:mm:ss.sssZ].  The checks are chained: each reads its part
    and hands the rest of the text to the next. *)
Fixpoint digitsThen (n : nat) (k : string -> bool) (s : string) : bool :=
  match n with
  | O => k s
  | S n' =>
      match s with
      | String c r => JS.isDigit c && digitsThen n' k r
      | EmptyString => false
      end
  end.

Definition charThen (c : ascii) (k : string -> bool) (s : string) : bool :=
  match s with
  | String c' r => Ascii.eqb c' c && k r
  | EmptyString => false
  end.

Definition isEnd (s : string) : bool := String.eqb s EmptyString.

Definition afterYear : string -> bool :=
  charThen "-" (digitsThen 2 (charThen "-" (digitsThen 2 (charThen "T"
    (digitsThen 2 (charThen ":" (digitsThen 2 (charThen ":" (digitsThen 2
      (charThen "." (digitsThen 3 (charThen "Z" isEnd)))))))))))).

Definition isISODateTime (s : string) : bool :=
  match s with
  | String c r =>
      if Ascii.eqb c "+" || Ascii.eqb c "-" then digitsThen 6 afterYear r
      else digitsThen 4 afterYear s
  | EmptyString => false
  end.

Fixpoint allDigits (s : string) : bool :=
  match s with
  | EmptyString => true
  | String c r => JS.isDigit c && allDigits r
  end.

Section RetryTerms.

Variable clk : Clock.
Variable openai : Remote.

(** The fallback result as the wrapper returns it. *)
Definition fallbackResult (ev : RawEvent) : JS.Completion (option Json) :=
  match fallbackClassification clk ev with
  | JS.Return c => JS.Return (Some (toJson c))
  | JS.Throw e => JS.Throw e
  end.

(** What a run of the loop can come to: [k] requests made, the run's
    result [r] and final state [st']. *)
Definition outcome (ev : RawEvent) (n : nat) (delay : Z) (st : State)
           (run : JS.Completion (option Json) * State) : Prop :=
  exists k,
    (k <= n)%nat /\ (n <> O -> 1 <= k)%nat
    /\ snd run = afterAttempts delay k st
    /\ ((n = O /\ fst run = JS.Return None)
        \/ (exists j, fst run = JS.Return (Some j)
                      /\ openai (k + calls st - 1)%nat (promptOf ev) = Responds (Some j))
        \/ fst run = fallbackResult ev).

End RetryTerms.

Section RefreshTerms.

Variable env : Env.

(** [MAX_EVENTS] configures the cap [cap]: it is unset or empty and the
    cap is the number of rows, or it reads as the number [cap]. *)
Definition capIs (cap length : nat) : bool :=
  match truthy (MAX_EVENTS env) with
  | None => Nat.eqb cap length
  | Some s =>
      match JS.StringToNumber s with
      | JS.Finite q => Qeq_bool q (inject_Z (Z.of_nat cap))
      | _ => false
      end
  end.

End RefreshTerms.

(** Case analysis on every test of a conditional in the goal. *)
Ltac split_ifs :=
  repeat match goal with
         | |- context [if ?b then _ else _] => destruct b
         end.

(** ** Sample inputs *)

Definition clock0 : Clock := mkClock 1793696400123 2026 (fun _ => -28800000).

Definition sampleEvent : RawEvent :=
  mkEvent "Resume Workshop & Career mixer" "sept 26 6:00pm" "" "Zoom" "GDS"
          "Free pizza for alumni, staff, PhD students and the public" "".

(** An event whose date column holds a day far out of range. *)
Definition distantEvent : RawEvent :=
  mkEvent "Colloquium talk" "jan 100000000" "" "Baskin Hall" "" "" "".

(** Two errors of the remote service, by their status. *)
Definition rateLimited : JS.Error :=
  JS.mkError "RateLimitError" "429 Too Many Requests" (Some 429) None.

Definition notFound : JS.Error :=
  JS.mkError "NotFoundError" "404 Not Found" (Some 404) None.

(** A client that is rate-limited twice and then answers, and one that
    never finds the model. *)
Definition twiceLimited (answer : Json) : Remote :=
  fun k _ => match k with
             | 0%nat | 1%nat => Rejects rateLimited
             | _ => Responds (Some answer)
             end.

Definition alwaysNotFound : Remote := fun _ _ => Rejects notFound.

(** A client that is rate-limited once and then does not find the model. *)
Definition limitedThenNotFound : Remote :=
  fun k _ => match k with
             | 0%nat => Rejects rateLimited
             | _ => Rejects notFound
             end.

(** A client whose answer parses, but to an object with no field. *)
Definition emptyAnswer : Remote := fun _ _ => Responds (Some (JObj [])).

(** An answer with every field, but a category outside the closed set and
    a confidence above 1. *)
Definition strayAnswer : Json :=
  JObj [("category", JStr "Party");
        ("tags", JArr [JStr "fun"]);
        ("audience", JArr [JStr "Undergrad"]);
        ("normalized_date", JStr "2026-09-26T18:00:00-07:00");
        ("location_type", JStr "On-campus");
        ("confidence", JNum (3 # 2));
        ("rationale", JStr "A party.")].

(** An answer that satisfies the schema. *)
Definition goodAnswer : Json :=
  JObj [("category", JStr "Career");
        ("tags", JArr [JStr "resume"; JStr "networking"]);
        ("audience", JArr [JStr "Undergrad"; JStr "Grad"]);
        ("normalized_date", JStr "2026-09-26T18:00:00-07:00");
        ("location_type", JStr "Virtual");
        ("confidence", JNum (9 # 10));
        ("rationale", JStr "A resume workshop held on Zoom.")].

(** A sheet of three rows, a sheet service that is down, configurations
    with a secret and a cap, and requests with and without the secret. *)
Definition threeRows : list (list string) :=
  [["Resume workshop"; "sept 26 6:00pm"; "Zoom"];
   ["Soccer tournament"; "oct 3"; "East Field"];
   ["Film festival"; "nov 12 7pm"; "Campus theater"]].

Definition sheetOfThree : Sheets := fun _ _ _ => SheetData (Some threeRows).

Definition sheetDown : Sheets :=
  fun _ _ _ => SheetFails (JS.mkError "Error" "The caller does not have permission"
                                      (Some 403) None).

Definition capTwo : Env := mkEnv (Some "s3cret") (Some "sheet-1") None (Some "2").


Definition withSecret : Request := mkRequest (Some "s3cret").

Definition wrongSecret : Request := mkRequest (Some "guess").

(* ------------------------------------------------------------------ *)
(** ** Further terms *)

(** No character of the text is the separator. *)
Fixpoint free (sep : ascii) (s : string) : bool :=
  match s with
  | EmptyString => true
  | String c r => negb (Ascii.eqb c sep) && free sep r
  end.

(** A text that is empty or starts with a character that is not white
    space. *)
Definition startsClean (s : string) : bool :=
  match s with
  | EmptyString => true
  | String c _ => negb (JS.isWhiteSpace c)
  end.

(** The text cut at every white-space character, empty pieces included,
    and its words: the pieces that are not empty. *)
Fixpoint chunks (s : string) : list string :=
  match s with
  | EmptyString => [EmptyString]
  | String c r =>
      if JS.isWhiteSpace c then EmptyString :: chunks r
      else match chunks r with
           | w :: ws => String c w :: ws
           | [] => [String c EmptyString]
           end
  end.

Definition nonEmpty (w : string) : bool := negb (String.eqb w EmptyString).

Definition wordsOf (s : string) : list string := filter nonEmpty (chunks s).

(** The pieces after the first, without the empty ones, except that an
    empty last piece stays. *)
Fixpoint squeezeTail (l : list string) : list string :=
  match l with
  | [] => []
  | [w] => [w]
  | w :: rest => if nonEmpty w then w :: squeezeTail rest else squeezeTail rest
  end.

Definition squeeze (l : list string) : list string :=
  match l with
  | [] => []
  | w :: rest => w :: squeezeTail rest
  end.

(** An ordered rule list with a default: the label of the first rule one
    of whose keywords is a token. *)
Fixpoint firstRule (default : string) (has : string -> bool)
         (rules : list (list string * string)) : string :=
  match rules with
  | [] => default
  | (keywords, label) :: rest =>
      if existsb has keywords then label else firstRule default has rest
  end.

Definition locationRules : list (list string * string) :=
  [(["zoom"; "virtual"; "online"], "Virtual");
   (["hybrid"], "Hybrid");
   (["campus"; "hall"; "center"; "theater"; "lab"], "On-campus")].

(** The keywords that let an audience in; "Undergrad" needs none. *)
Definition audienceKeywords (a : string) : list string :=
  if String.eqb a "Grad" then ["graduate"; "phd"; "ms"]
  else if String.eqb a "Alumni" then ["alumni"]
  else if String.eqb a "Staff" then ["staff"]
  else if String.eqb a "Public" then ["public"; "community"]
  else [].

Definition qualifies (has : string -> bool) (a : string) : bool :=
  String.eqb a "Undergrad" || existsb has (audienceKeywords a).

(** The tags beside the category, with the keywords of each. *)
Definition tagRules : list (list string * string) :=
  [(["free"], "free");
   (["food"; "pizza"], "food");
   (["resume"], "resume");
   (["tech"; "cs"; "gds"], "tech")].

Definition tagsOfRules (has : string -> bool) : list string :=
  map snd (filter (fun rule => existsb has (fst rule)) tagRules).

(** Every keyword the fallback looks for. *)
Definition keywords : list string :=
  (List.concat (map fst categoryRules) ++ List.concat (map fst locationRules)
   ++ List.concat (map audienceKeywords audiences)
   ++ List.concat (map fst tagRules))%list.

(** What the fallback returns for [sampleEvent] on [clock0]. *)
Definition sampleClassification : Classification :=
  {| category := "Workshop";
     tags := ["workshop"; "free"; "food"; "resume"];
     audience := ["Undergrad"; "Grad"; "Alumni"];
     normalized_date := "2026-09-27T02:00:00.000Z";
     location_type := "Virtual";
     confidence := 1 # 4;
     rationale := fallbackRationale |}.

(** An event with no keyword and no date: a row of one cell. *)
Definition plainEvent : RawEvent := rowToEvent ["Open house"].

(** The sum of a list of delays. *)
Definition total (l : list Z) : Z := fold_right Z.add 0 l.

(** A client whose answers never parse, and one that is always down. *)
Definition neverJson : Remote := fun _ _ => Responds None.

Definition alwaysDown : Remote :=
  fun _ _ => Rejects (JS.mkError "InternalServerError" "503 Service Unavailable"
                                 (Some 503) None).

(** The number of rows the sheet service answers with; none when it
    fails. *)
Definition rowCount (answer : SheetOutcome) : nat :=
  match answer with
  | SheetData values => List.length (rowsOf values)
  | SheetFails _ => O
  end.

(** [x] is set, not empty, and reads as the integer [z]. *)
Definition readsAs (x : option string) (z : Z) : bool :=
  match truthy x with
  | Some s =>
      match JS.StringToNumber s with
      | JS.Finite q => Qeq_bool q (inject_Z z)
      | _ => false
      end
  | None => false
  end.

(** A configuration whose cap is negative. *)
Definition capMinusOne : Env := mkEnv None (Some "sheet-1") None (Some "-1").

(** The server over a sequence of requests to [POST /api/refresh], one
    after the other. *)
Fixpoint serve (clk : Clock) (openai : Remote) (sheets : Sheets) (env : Env)
         (reqs : list Request) (st : State) : State :=
  match reqs with
  | [] => st
  | req :: rest =>
      serve clk openai sheets env rest (snd (postRefresh clk openai sheets env req st))
  end.

(** A cached event as the route builds it: the event of some row, with a
    classification that is not [undefined]. *)
Definition built (ce : ClassifiedEvent) : Prop :=
  (exists row, event ce = rowToEvent row) /\ classification ce <> None.

(** [w] is one of the words of [s] put in lower case. *)
Definition wordIn (s w : string) : bool :=
  existsb (String.eqb w) (JS.matchWords (JS.toLowerCase s)).

(** The sample event in capitals, from another organiser. *)
Definition shoutedEvent : RawEvent :=
  mkEvent "RESUME WORKSHOP & CAREER MIXER" "sept 26 6:00pm" "evening" "ZOOM" "Career Center"
          "FREE PIZZA FOR ALUMNI, STAFF, PHD STUDENTS AND THE PUBLIC"
          "https://example.org/mixer".

(** ** The private key of the service account *)

Definition backslash : ascii := ascii_of_nat 92.

Definition lineFeed : ascii := ascii_of_nat 10.

(** The two characters the pattern [/\\n/] matches: a backslash and the
    letter n. *)
Definition escapedNewline : string := String backslash (String "n"%char EmptyString).

(** [k.replace(/\\n/g, "\n")]: from left to right, every backslash that the
    letter n follows becomes, with that letter, one line feed. *)
Fixpoint decodeNewlines (k : string) : string :=
  match k with
  | EmptyString => EmptyString
  | String c r =>
      match r with
      | String c2 r' =>
          if Ascii.eqb c backslash && Ascii.eqb c2 "n"%char
          then String lineFeed (decodeNewlines r')
          else String c (decodeNewlines r)
      | EmptyString => String c EmptyString
      end
  end.

(** [s.includes(t)] *)
Fixpoint includes (s t : string) : bool :=
  String.prefix t s
  || match s with
     | EmptyString => false
     | String _ r => includes r t
     end.

(** [process.env.GOOGLE_PRIVATE_KEY || ""] *)
Definition orEmpty (x : option string) : string :=
  match x with Some s => s | None => EmptyString end.

(** The key the server and the sheet test hand to the JWT client. *)
Definition privateKey (GOOGLE_PRIVATE_KEY : option string) : string :=
  decodeNewlines (orEmpty GOOGLE_PRIVATE_KEY).

(** What the diagnostic script prints about the key: [Has BEGIN in private
    key], [Has literal \n] and [Decoded contains newlines]. *)
Definition hasBegin (GOOGLE_PRIVATE_KEY : option string) : bool :=
  includes (orEmpty GOOGLE_PRIVATE_KEY) "BEGIN PRIVATE KEY".

Definition hasLiteralNewline (GOOGLE_PRIVATE_KEY : option string) : bool :=
  includes (orEmpty GOOGLE_PRIVATE_KEY) escapedNewline.

Definition decodedContainsNewlines (GOOGLE_PRIVATE_KEY : option string) : bool :=
  includes (decodeNewlines (orEmpty GOOGLE_PRIVATE_KEY)) newline.

(** ** The prompt *)

(** The instructions of the prompt, up to the lines of the event. *)
Definition instructions : string :=
  "You are classifying UCSC campus events for a student website." ++ newline
  ++ "Return ONLY valid JSON that matches the provided JSON schema." ++ newline
  ++ "- Normalize date/time to ISO 8601 in America/Los_Angeles." ++ newline
  ++ "- If only a date exists, default time to 09:00:00." ++ newline
  ++ "- Detect location_type from " ++ quote
  ++ "Zoom/virtual/online/hybrid/campus" ++ quote ++ " hints." ++ newline
  ++ "- Tags should be concise (<=8), useful, and lowercase." ++ newline
  ++ newline
  ++ "Event:" ++ newline.

(** Membership in a list that is written out. *)
Ltac in_keywords := vm_compute; repeat (first [left; reflexivity | right]).

(* ================================================================== *)
(** * Properties *)

(** ** The host model on known values *)

Example ex_parseInt :
  JS.parseInt "26" = Some 26 /\ JS.parseInt " -7th" = Some (-7) /\
  JS.parseInt "xx" = None /\ JS.parseInt "" = None /\ JS.parseInt "0x10" = Some 0.
Proof. repeat split; reflexivity. Qed.

Example ex_Number :
  JS.StringToNumber "25" = JS.Finite (25 # 1) /\
  JS.StringToNumber " -1 " = JS.Finite (-1 # 1) /\
  JS.StringToNumber "abc" = JS.NaN /\
  JS.StringToNumber "1e2" = JS.Finite (100 # 1) /\
  JS.StringToNumber "2.5" = JS.Finite (25 # 10) /\
  JS.StringToNumber "0x1f" = JS.Finite (31 # 1) /\
  JS.StringToNumber "." = JS.NaN /\
  JS.StringToNumber "5." = JS.Finite (5 # 1) /\
  JS.StringToNumber "12px" = JS.NaN /\
  JS.StringToNumber "-Infinity" = JS.Infinity true /\
  JS.StringToNumber "  " = JS.Finite 0.
Proof. repeat split; reflexivity. Qed.

Example ex_iso :
  Date.isoText 0 = "1970-01-01T00:00:00.000Z" /\
  Date.isoText 1793696400123 = "2026-11-03T09:00:00.123Z" /\
  Date.isoText (-1) = "1969-12-31T23:59:59.999Z" /\
  Date.isoText 8640000000000000 = "+275760-09-13T00:00:00.000Z" /\
  Date.isoText (-8640000000000000) = "-271821-04-20T00:00:00.000Z" /\
  Date.isoText 951782400000 = "2000-02-29T00:00:00.000Z".
Proof. repeat split; vm_compute; reflexivity. Qed.

Example ex_sept26 :
  option_map Date.isoText (parseCampusDate clock0 "sept 26 6:00pm")
  = Some "2026-09-27T02:00:00.000Z".
Proof. vm_compute. reflexivity. Qed.

(** A negative [MAX_EVENTS] is read by [slice] from the end of the rows. *)
Example ex_negative_cap :
  toClassifyOf (mkEnv None None None (Some "-1")) (Some threeRows)
  = map rowToEvent (firstn 2 threeRows).
Proof. reflexivity. Qed.

Example ex_matchTime :
  matchTime "6:00pm" = Some ("6", Some "00", Some "pm")
  /\ matchTime "12" = Some ("12", None, None)
  /\ matchTime "7 am" = Some ("7", None, Some "am")
  /\ matchTime "123" = None /\ matchTime "6:5" = None /\ matchTime "6:" = None
  /\ matchTime "6:000" = None /\ matchTime "6pm " = None /\ matchTime "pm" = None
  /\ matchTime "06:30  pm" = Some ("06", Some "30", Some "pm")
  /\ matchTime "6:30 p.m." = None /\ matchTime "noon" = None.
Proof. repeat split. Qed.

Example ex_makeday :
  Date.MakeDay 2026 0 1 = 20454 /\ Date.MakeDay 1970 0 1 = 0 /\
  Date.MakeDay 2000 1 29 = 11016 /\ Date.MakeDay 2024 2 1 = 19783.
Proof. repeat split; reflexivity. Qed.

(** ** The schema as a check on classifications *)

Lemma fallbackCategory_closed (has : string -> bool) :
  inList categories (fallbackCategory has) = true.
Proof. unfold fallbackCategory. split_ifs; reflexivity. Qed.

Lemma fallbackLocationType_closed (has : string -> bool) :
  inList location_types (fallbackLocationType has) = true.
Proof. unfold fallbackLocationType. split_ifs; reflexivity. Qed.

Lemma fallbackAudience_closed (has : string -> bool) :
  let a := firstn 3 (fallbackAudience has) in
  Nat.leb 1 (List.length a) && Nat.leb (List.length a) 3
  && forallb (inList audiences) a = true.
Proof. unfold fallbackAudience, pushIf. split_ifs; reflexivity. Qed.

Lemma fallbackTags_closed (has : string -> bool) :
  let t := firstn 8 (unique (fallbackTags has (fallbackCategory has))) in
  distinct t && forallb isLowerCase t && Nat.leb (List.length t) 8 = true.
Proof.
  unfold fallbackCategory, fallbackTags, pushIf.
  split_ifs; vm_compute; reflexivity.
Qed.

(** The code never truncates: the tags before [slice(0, 8)] and after it
    are the same list, and already free of duplicates. *)
Lemma fallbackTags_short (has : string -> bool) :
  firstn 8 (unique (fallbackTags has (fallbackCategory has)))
  = fallbackTags has (fallbackCategory has).
Proof.
  unfold fallbackCategory, fallbackTags, pushIf.
  split_ifs; vm_compute; reflexivity.
Qed.

(** *** The text of a date *)

Lemma digit_char (n : Z) :
  JS.isDigit (ascii_of_nat (Z.to_nat (48 + n mod 10))) = true.
Proof.
  pose proof (Z.mod_pos_bound n 10 ltac:(lia)) as H.
  assert (E : n mod 10 = 0 \/ n mod 10 = 1 \/ n mod 10 = 2 \/ n mod 10 = 3
              \/ n mod 10 = 4 \/ n mod 10 = 5 \/ n mod 10 = 6 \/ n mod 10 = 7
              \/ n mod 10 = 8 \/ n mod 10 = 9) by lia.
  repeat destruct E as [E|E]; rewrite E; reflexivity.
Qed.

Lemma allDigits_app (a b : string) :
  allDigits (a ++ b) = allDigits a && allDigits b.
Proof.
  induction a as [|c a IH]; cbn; [reflexivity|]. now rewrite IH, andb_assoc.
Qed.

Lemma string_length_app (a b : string) :
  String.length (a ++ b) = (String.length a + String.length b)%nat.
Proof. induction a as [|c a IH]; cbn; [reflexivity|]. now rewrite IH. Qed.

Lemma padded_digits (w : nat) :
  forall n, allDigits (Date.padded w n) = true /\ String.length (Date.padded w n) = w.
Proof.
  induction w as [|w IH]; intros n; cbn [Date.padded]; [split; reflexivity|].
  destruct (IH (n / 10)) as [Hd Hl].
  rewrite allDigits_app, string_length_app, Hd, Hl. cbn [allDigits String.length andb].
  rewrite digit_char. split; [reflexivity|lia].
Qed.

Lemma digitsThen_app (ds : string) (k : string -> bool) (s : string) :
  allDigits ds = true ->
  digitsThen (String.length ds) k (ds ++ s) = k s.
Proof.
  induction ds as [|c ds IH]; cbn; [reflexivity|].
  intros H. apply andb_true_iff in H as [Hc Hd]. now rewrite Hc, IH.
Qed.

Lemma digitsThen_padded (w : nat) (n : Z) (k : string -> bool) (s : string) :
  digitsThen w k (Date.padded w n ++ s) = k s.
Proof.
  destruct (padded_digits w n) as [Hd Hl].
  rewrite <- Hl at 1. now apply digitsThen_app.
Qed.

(** Every text that [toISOString] gives has the shape of an ISO 8601
    date-time. *)
Lemma isoText_shape (tv : Z) : isISODateTime (Date.isoText tv) = true.
Proof.
  unfold Date.isoText.
  destruct (Date.civil (tv / Date.msPerDay)) as [[y m] d].
  set (ms := tv mod Date.msPerDay).
  set (rest := ("-" ++ _)%string).
  assert (Hrest : afterYear rest = true).
  { subst rest. unfold afterYear.
    repeat (cbn [charThen append Ascii.eqb Bool.eqb andb];
            rewrite ?digitsThen_padded).
    reflexivity. }
  unfold Date.yearText.
  destruct ((0 <=? y) && (y <=? 9999)).
  - destruct (padded_digits 4 y) as [Hd Hl].
    destruct (Date.padded 4 y) as [|c r] eqn:E; [discriminate|].
    unfold isISODateTime. cbn [append].
    replace (Ascii.eqb c "+" || Ascii.eqb c "-") with false.
    + rewrite <- (digitsThen_padded 4 y afterYear rest) in Hrest.
      now rewrite E in Hrest.
    + cbn [allDigits] in Hd. apply andb_true_iff in Hd as [Hc _].
      destruct (Ascii.eqb_spec c "+") as [->|_]; [discriminate|].
      destruct (Ascii.eqb_spec c "-") as [->|_]; [discriminate|reflexivity].
  - destruct (y <? 0); unfold isISODateTime; cbn [append Ascii.eqb Bool.eqb orb];
      rewrite digitsThen_padded; exact Hrest.
Qed.

(** What [fallbackClassification] does, by the validity of the date it
    parses: it throws on an invalid date and returns otherwise. *)
Lemma fallbackClassification_spec (clk : Clock) (ev : RawEvent) :
  match parseCampusDate clk (date ev) with
  | None => fallbackClassification clk ev = JS.Throw JS.RangeError_invalid_time
  | Some tv =>
      exists c, fallbackClassification clk ev = JS.Return c
                /\ closedSets c = true
                /\ normalized_date c = Date.isoText tv
                /\ confidence c = 1 # 4
                /\ rationale c = fallbackRationale
                /\ category c = fallbackCategory (hasToken ev)
  end.
Proof.
  unfold fallbackClassification.
  destruct (parseCampusDate clk (date ev)) as [tv|]; cbn [Date.toISOString]; [|reflexivity].
  eexists; split; [reflexivity|].
  repeat split.
  unfold closedSets; cbn [category tags audience location_type].
  rewrite fallbackCategory_closed, fallbackLocationType_closed.
  pose proof (fallbackTags_closed (hasToken ev)) as Ht.
  pose proof (fallbackAudience_closed (hasToken ev)) as Ha.
  cbv zeta in Ht, Ha.
  apply andb_true_iff in Ht as [Ht Ht3]. apply andb_true_iff in Ht as [Ht1 Ht2].
  apply andb_true_iff in Ha as [Ha Ha3]. apply andb_true_iff in Ha as [Ha1 Ha2].
  rewrite Ht1, Ht2, Ht3, Ha1, Ha2, Ha3. reflexivity.
Qed.

Lemma forallb_JStr (f : Json -> bool) (l : list string) :
  forallb f (map JStr l) = forallb (fun s => f (JStr s)) l.
Proof. induction l as [|x l IH]; cbn; [reflexivity|]. now rewrite IH. Qed.

(** Validation of a classification object, field by field. *)
Lemma validate_toJson (c : Classification) :
  validate (schema classificationSchema) (toJson c)
  = inList categories (category c)
    && Nat.leb (List.length (tags c)) 8
    && (Nat.leb 1 (List.length (audience c)) && Nat.leb (List.length (audience c)) 3
        && forallb (inList audiences) (audience c))
    && inList location_types (location_type c)
    && (Qle_bool 0 (confidence c) && Qle_bool (confidence c) 1).
Proof.
  destruct c as [cat tg au nd lt cf ra].
  unfold toJson, classificationSchema. cbn [schema].
  cbn [category tags audience normalized_date location_type confidence rationale].
  cbn -[inList categories audiences location_types Qle_bool Nat.leb].
  rewrite !forallb_JStr, !length_map.
  replace (forallb (fun _ : string => true) tg) with true
    by (induction tg; cbn; auto).
  fold (inList categories cat) (inList location_types lt).
  change (forallb (fun s => existsb (String.eqb s) audiences) au)
    with (forallb (inList audiences) au).
  btauto.
Qed.

Lemma closedSets_validate (c : Classification) :
  closedSets c = true -> confidence c = 1 # 4 ->
  validate (schema classificationSchema) (toJson c) = true.
Proof.
  intros H Hc. rewrite validate_toJson, Hc.
  unfold closedSets in H.
  repeat (apply andb_true_iff in H; destruct H as [H ?]).
  repeat (apply andb_true_iff; split); auto.
Qed.

(** Whatever the fallback returns passes the schema. *)
Lemma fallbackClassification_valid (clk : Clock) (ev : RawEvent) (c : Classification) :
  fallbackClassification clk ev = JS.Return c ->
  validate (schema classificationSchema) (toJson c) = true.
Proof.
  intros H. pose proof (fallbackClassification_spec clk ev) as S.
  destruct (parseCampusDate clk (date ev)).
  - destruct S as (c' & E & Hs & _ & Hc & _).
    rewrite E in H. injection H as <-. now apply closedSets_validate.
  - rewrite S in H. discriminate.
Qed.

(** The date of whatever the fallback returns is an ISO 8601 text. *)
Lemma fallbackClassification_date (clk : Clock) (ev : RawEvent) (c : Classification) :
  fallbackClassification clk ev = JS.Return c ->
  isISODateTime (normalized_date c) = true.
Proof.
  intros H. pose proof (fallbackClassification_spec clk ev) as S.
  destruct (parseCampusDate clk (date ev)) as [tv|].
  - destruct S as (c' & E & _ & Hd & _).
    rewrite E in H. injection H as <-. rewrite Hd. apply isoText_shape.
  - rewrite S in H. discriminate.
Qed.

(** The invariants of whatever the fallback returns: the closed sets and
    size bounds, an ISO 8601 date, the confidence 0.25, and with them the
    schema. *)
Lemma fallbackClassification_invariants (clk : Clock) (ev : RawEvent) (c : Classification) :
  fallbackClassification clk ev = JS.Return c ->
  closedSets c = true
  /\ isISODateTime (normalized_date c) = true
  /\ confidence c = 1 # 4
  /\ validate (schema classificationSchema) (toJson c) = true.
Proof.
  intros H. pose proof (fallbackClassification_spec clk ev) as S.
  destruct (parseCampusDate clk (date ev)) as [tv|].
  - destruct S as (c' & E & Hs & _ & Hc & _).
    rewrite E in H. injection H as <-.
    repeat split; [exact Hs| |exact Hc|].
    + now apply (fallbackClassification_date clk ev).
    + now apply (fallbackClassification_valid clk ev).
  - rewrite S in H. discriminate.
Qed.

(** The fallback throws when the date it parses is an Invalid Date. *)
Lemma fallbackClassification_invalid (clk : Clock) (ev : RawEvent) :
  parseCampusDate clk (date ev) = None ->
  fallbackClassification clk ev = JS.Throw JS.RangeError_invalid_time.
Proof.
  intros H. pose proof (fallbackClassification_spec clk ev) as S.
  now rewrite H in S.
Qed.

(** The fallback returns when the date it parses is valid. *)
Lemma fallbackClassification_returns (clk : Clock) (ev : RawEvent) :
  parseCampusDate clk (date ev) <> None ->
  exists c, fallbackClassification clk ev = JS.Return c.
Proof.
  intros H. pose proof (fallbackClassification_spec clk ev) as S.
  destruct (parseCampusDate clk (date ev)); [|congruence].
  destruct S as (c & E & _). now exists c.
Qed.

(* ------------------------------------------------------------------ *)
(** ** The date parser *)

Lemma dayOf_number (parts : list string) : isNaN (dayOf parts) = false.
Proof.
  unfold dayOf, orOne.
  destruct (JS.parseIntAt (nth_error parts 1)) as [n|]; [|reflexivity].
  destruct (n =? 0); reflexivity.
Qed.

Lemma digit_value (c : ascii) : JS.isDigit c = true -> 0 <= JS.code c - 48 <= 9.
Proof.
  unfold JS.isDigit, JS.between. intros H. apply andb_true_iff in H as [H1 H2].
  apply Z.leb_le in H1. apply Z.leb_le in H2. lia.
Qed.

Lemma takeHour_bounds (s g r : string) :
  takeHour s = Some (g, r) -> 0 <= JS.decimalValue g < 100.
Proof.
  unfold takeHour. destruct s as [|c1 r1]; [discriminate|].
  destruct (JS.isDigit c1) eqn:H1; [|discriminate]. apply digit_value in H1.
  destruct r1 as [|c2 r2].
  - intros H. injection H as <- <-. unfold JS.decimalValue; cbn [JS.decimalFrom]. lia.
  - destruct (JS.isDigit c2) eqn:H2; intros H; injection H as <- <-;
      unfold JS.decimalValue; cbn [JS.decimalFrom]; [apply digit_value in H2|]; lia.
Qed.

Lemma takeMinutes_bounds (s g r : string) :
  takeMinutes s = Some (Some g, r) -> 0 <= JS.decimalValue g < 100.
Proof.
  unfold takeMinutes. destruct s as [|c [|a [|b r']]]; try discriminate.
  - destruct (Ascii.eqb_spec c ":"); [subst; discriminate|].
    destruct c as [[] [] [] [] [] [] [] []]; discriminate.
  - destruct c as [[] [] [] [] [] [] [] []]; discriminate.
  - destruct c as [[] [] [] [] [] [] [] []]; try discriminate.
    destruct (JS.isDigit a) eqn:Ha; [|discriminate].
    destruct (JS.isDigit b) eqn:Hb; [|discriminate].
    apply digit_value in Ha. apply digit_value in Hb.
    intros H. injection H as <- <-.
    unfold JS.decimalValue; cbn [JS.decimalFrom]. lia.
Qed.

Lemma meridiem_bounds (mer : option string) (hh : Z) :
  0 <= hh < 100 -> 0 <= meridiem mer hh < 112.
Proof.
  intros H. unfold meridiem.
  destruct (merIs mer "pm" && (hh <? 12)) eqn:E.
  - apply andb_true_iff in E as [_ E]. apply Z.ltb_lt in E.
    destruct (merIs mer "am" && (hh + 12 =? 12)); lia.
  - destruct (merIs mer "am" && (hh =? 12)); lia.
Qed.

(** The hour and the minute are small numbers, whatever the text. *)
Lemma timeOf_bounds (timeRaw : string) :
  0 <= fst (timeOf timeRaw) < 112 /\ 0 <= snd (timeOf timeRaw) < 100.
Proof.
  unfold timeOf. destruct (String.eqb timeRaw ""); [cbn; lia|].
  unfold matchTime.
  destruct (takeHour timeRaw) as [[g1 r1]|] eqn:Hh; [|cbn; lia].
  destruct (takeMinutes r1) as [[g2 r2]|] eqn:Hm; [|cbn; lia].
  destruct (takeMeridiem r2) as [mer|]; [|cbn; lia].
  cbn [fst snd]. split.
  - apply meridiem_bounds. now apply (takeHour_bounds timeRaw g1 r1).
  - destruct g2 as [g|]; [|lia]. now apply (takeMinutes_bounds r1 g r2).
Qed.

Lemma months_range (key : string) (n : Z) :
  ownProperty months key = Some n -> 0 <= n <= 11.
Proof.
  unfold months. cbn [ownProperty].
  repeat match goal with
         | |- context [if ?b then _ else _] => destruct b
         end; intros H; try discriminate; injection H as <-; lia.
Qed.

Lemma daysBeforeMonth_range (leap : bool) (mn : Z) :
  0 <= mn <= 11 -> 0 <= Date.daysBeforeMonth leap mn <= 335.
Proof.
  intros H. unfold Date.daysBeforeMonth.
  assert (E : mn = 0 \/ mn = 1 \/ mn = 2 \/ mn = 3 \/ mn = 4 \/ mn = 5 \/ mn = 6
              \/ mn = 7 \/ mn = 8 \/ mn = 9 \/ mn = 10 \/ mn = 11) by lia.
  repeat destruct E as [E|E]; subst mn; destruct leap;
    split; apply Z.leb_le; reflexivity.
Qed.

(** A date is valid on a clock of the common era when its month is a month
    of the table and its day is at most ten million either way. *)
Lemma parseCampusDate_valid (clk : Clock) (s : string) :
  0 <= fullYear clk <= 9999 ->
  (forall t, - Date.msPerDay <= LocalTZA clk t <= Date.msPerDay) ->
  monthOf (partsOf s) <> Inherited ->
  (forall d, dayOf (partsOf s) = Some d -> - 10000000 <= d <= 10000000) ->
  parseCampusDate clk s <> None.
Proof.
  intros Hy Htz Hm Hd. unfold parseCampusDate.
  destruct (String.eqb s ""); [discriminate|].
  pose proof (timeOf_bounds (timeRawOf (partsOf s))) as [Hh Hmin].
  destruct (timeOf (timeRawOf (partsOf s))) as [hh mm]. cbn [fst snd] in *.
  rewrite dayOf_number.
  destruct (monthOf (partsOf s)) as [n| |] eqn:Em; cbn [isNullish orb];
    [|discriminate|congruence].
  assert (Hn : 0 <= n <= 11).
  { unfold monthOf in Em. destruct (nth_error (partsOf s) 0) as [key|]; [|discriminate].
    unfold monthsAt in Em. destruct (ownProperty months key) as [n'|] eqn:Eo.
    - injection Em as <-. now apply (months_range key).
    - destruct (existsb _ _); discriminate. }
  destruct (dayOf (partsOf s)) as [d|] eqn:Ed;
    [|pose proof (dayOf_number (partsOf s)) as Hnan; rewrite Ed in Hnan; discriminate].
  specialize (Hd d eq_refl).
  cbn [ToNumber Date.local]. unfold Date.TimeClip, Date.UTC.
  set (t := Date.MakeDate _ _). specialize (Htz t).
  assert (Ht : - 20000000 * Date.msPerDay <= t <= 20000000 * Date.msPerDay).
  { subst t. unfold Date.MakeDate, Date.MakeDay, Date.MakeTime.
    rewrite (Z.div_small n 12), (Z.mod_small n 12) by lia.
    rewrite Z.add_0_r.
    pose proof (daysBeforeMonth_range (Date.InLeapYear (Date.MakeFullYear (fullYear clk))) n Hn).
    assert (Hyr : 100 <= Date.MakeFullYear (fullYear clk) <= 9999).
    { unfold Date.MakeFullYear.
      destruct ((0 <=? fullYear clk) && (fullYear clk <=? 99)) eqn:E.
      - apply andb_true_iff in E as [E1 E2]. apply Z.leb_le in E1, E2. lia.
      - apply andb_false_iff in E as [E|E]; [apply Z.leb_gt in E|apply Z.leb_gt in E]; lia. }
    unfold Date.DayFromYear, Date.msPerDay.
    set (yr := Date.MakeFullYear (fullYear clk)) in *.
    set (dbm := Date.daysBeforeMonth _ _) in *.
    Z.to_euclidean_division_equations. lia. }
  unfold Date.msPerDay in *.
  replace (Date.maxTime <? Z.abs (t - LocalTZA clk t)) with false; [discriminate|].
  symmetry. apply Z.ltb_ge. unfold Date.maxTime. lia.
Qed.

(** On such a clock and for such a date the fallback returns, and what it
    returns has every invariant of a classification. *)
Lemma fallbackClassification_safe (clk : Clock) (ev : RawEvent) :
  0 <= fullYear clk <= 9999 ->
  (forall t, - Date.msPerDay <= LocalTZA clk t <= Date.msPerDay) ->
  monthOf (partsOf (date ev)) <> Inherited ->
  (forall d, dayOf (partsOf (date ev)) = Some d -> - 10000000 <= d <= 10000000) ->
  exists c,
    fallbackClassification clk ev = JS.Return c
    /\ closedSets c = true
    /\ isISODateTime (normalized_date c) = true
    /\ confidence c = 1 # 4
    /\ validate (schema classificationSchema) (toJson c) = true.
Proof.
  intros Hy Htz Hm Hd.
  destruct (fallbackClassification_returns clk ev
              (parseCampusDate_valid clk (date ev) Hy Htz Hm Hd)) as (c & Hc).
  exists c. split; [exact Hc|]. now apply (fallbackClassification_invariants clk ev).
Qed.


(** A month token that [months] inherits rather than owns gives an
    Invalid Date, whatever the clock. *)
Lemma parseCampusDate_inherited (clk : Clock) :
  parseCampusDate clk "constructor 5" = None
  /\ parseCampusDate clk "__proto__" = None.
Proof. split; reflexivity. Qed.

(** A day beyond the range of time values gives an Invalid Date, on any
    clock of this era. *)
Lemma parseCampusDate_out_of_range (clk : Clock) :
  1971 <= fullYear clk ->
  (forall t, LocalTZA clk t <= Date.msPerDay) ->
  parseCampusDate clk "jan 100000000" = None.
Proof.
  intros Hy Htz.
  change (parseCampusDate clk "jan 100000000")
    with (Date.local clk (fullYear clk) (Some 0) (Some 100000000) 9 0 0).
  unfold Date.local, Date.TimeClip, Date.UTC.
  set (t := Date.MakeDate _ _).
  specialize (Htz t).
  assert (Ht : 100000002 * Date.msPerDay <= t).
  { subst t. unfold Date.MakeDate, Date.MakeDay, Date.MakeTime, Date.MakeFullYear,
      Date.DayFromYear, Date.daysBeforeMonth, Date.msPerDay.
    replace ((0 <=? fullYear clk) && (fullYear clk <=? 99)) with false
      by (symmetry; apply andb_false_iff; right; apply Z.leb_gt; lia).
    change (0 / 12) with 0. change (0 mod 12) with 0.
    rewrite Z.add_0_r.
    change (2 <=? 0) with false. rewrite andb_false_r.
    cbn [Z.to_nat nth].
    Z.to_euclidean_division_equations. lia. }
  unfold Date.msPerDay in *.
  replace (Date.maxTime <? Z.abs (t - LocalTZA clk t)) with true; [reflexivity|].
  symmetry. apply Z.ltb_lt. unfold Date.maxTime. lia.
Qed.

(** C7.  "sept 26 6:00pm" is read as month index 8, day 26, 18:00 of the
    clock's year; the empty string and "xyz 5", whose month is unknown,
    give the current instant.  With a meridiem, on the clock of twelve
    hours, "pm" adds 12 to the hour unless the hour is 12, and "am" turns
    hour 12 into 0 and leaves any other hour as it is; without a meridiem
    the hour is left as it is. *)
Theorem parseCampusDate_reads_time :
  (forall clk, parseCampusDate clk "sept 26 6:00pm"
               = Date.local clk (fullYear clk) (Some 8) (Some 26) 18 0 0)
  /\ (forall clk, parseCampusDate clk "" = Date.current clk)
  /\ (forall clk, parseCampusDate clk "xyz 5" = Date.current clk)
  /\ (forall hh, 0 <= hh <= 12 ->
                 meridiem (Some "pm") hh = if hh =? 12 then hh else hh + 12)
  /\ (forall hh, meridiem (Some "am") hh = if hh =? 12 then 0 else hh)
  /\ (forall hh, meridiem None hh = hh)
  /\ timeOf "11pm" = (23, 0) /\ timeOf "12pm" = (12, 0)
  /\ timeOf "12:30 am" = (0, 30) /\ timeOf "7:45am" = (7, 45)
  /\ timeOf "6:00" = (6, 0).
Proof.
  repeat split; intros; try reflexivity.
  unfold meridiem. cbn [merIs String.eqb Ascii.eqb Bool.eqb andb].
  destruct (Z.eqb_spec hh 12) as [->|Hne]; [reflexivity|].
  replace (hh <? 12) with true by (symmetry; apply Z.ltb_lt; lia).
  destruct (Z.eqb_spec (hh + 12) 12); [lia|reflexivity].
Qed.

Lemma parseCampusDate_reads_time_witness :
  meridiem (Some "pm") 6 = 18 /\ meridiem (Some "pm") 12 = 12
  /\ meridiem (Some "pm") 0 = 12.
Proof.
  destruct parseCampusDate_reads_time as (_ & _ & _ & H & _).
  split; [|split]; [apply (H 6)|apply (H 12)|apply (H 0)]; lia.
Defined.

(** The pattern of the time takes any two digits for the hour; an hour
    that no clock of twelve hours shows is left as it is by "pm". *)
Example ex_13pm : timeOf "13pm" = (13, 0).
Proof. reflexivity. Qed.

(** C8 (as amended).  When the first token is neither a key of the month
    table nor a member every object inherits, the result is the current
    instant.  When the month resolves, the date is built from it and from
    the day, and the day is always a number: it is 1 when the second token
    is missing, is not an integer or is 0, so a bad day never sends the
    result to the current instant. *)
Theorem parseCampusDate_defaults (clk : Clock) (s : string) :
  isNaN (dayOf (partsOf s)) = false
  /\ (forall key,
        nth_error (partsOf s) 0 = Some key ->
        ownProperty months key = None ->
        inList ObjectPrototype key = false ->
        parseCampusDate clk s = Date.current clk)
  /\ (forall n,
        String.eqb s "" = false ->
        monthOf (partsOf s) = Own n ->
        parseCampusDate clk s
        = Date.local clk (fullYear clk) (Some n) (dayOf (partsOf s))
            (fst (timeOf (timeRawOf (partsOf s))))
            (snd (timeOf (timeRawOf (partsOf s)))) 0)
  /\ (JS.parseIntAt (nth_error (partsOf s) 1) = None ->
      dayOf (partsOf s) = Some 1)
  /\ (JS.parseIntAt (nth_error (partsOf s) 1) = Some 0 ->
      dayOf (partsOf s) = Some 1).
Proof.
  split; [apply dayOf_number|]. split; [|split; [|split]].
  - intros key Hk Hown Hinh. unfold parseCampusDate.
    destruct (String.eqb s ""); [reflexivity|].
    unfold monthOf, monthsAt. rewrite Hk, Hown.
    unfold inList in Hinh. rewrite Hinh.
    destruct (timeOf _). reflexivity.
  - intros n Hs Hm. unfold parseCampusDate. rewrite Hs, Hm, dayOf_number.
    destruct (timeOf _). reflexivity.
  - intros Hd. unfold dayOf. now rewrite Hd.
  - intros Hd. unfold dayOf. now rewrite Hd.
Qed.

Lemma parseCampusDate_defaults_witness :
  parseCampusDate clock0 "xyz 5" = Date.current clock0
  /\ parseCampusDate clock0 "sept xx" = Date.local clock0 2026 (Some 8) (Some 1) 9 0 0
  /\ dayOf (partsOf "sept 0") = Some 1.
Proof.
  destruct (parseCampusDate_defaults clock0 "xyz 5") as (_ & Hnow & _).
  destruct (parseCampusDate_defaults clock0 "sept xx") as (_ & _ & Hbuilt & Hday & _).
  destruct (parseCampusDate_defaults clock0 "sept 0") as (_ & _ & _ & _ & Hzero).
  split; [|split].
  - apply (Hnow "xyz"); reflexivity.
  - rewrite (Hbuilt 8), Hday; reflexivity.
  - apply Hzero. reflexivity.
Defined.

(** C8, the claim as it was stated: in "sept xx" the day token is not an
    integer, and the result is the first of September at 9:00, not the
    current instant. *)
Lemma parseCampusDate_day_not_integer :
  JS.parseIntAt (nth_error (partsOf "sept xx") 1) = None
  /\ parseCampusDate clock0 "sept xx" = Date.local clock0 2026 (Some 8) (Some 1) 9 0 0
  /\ parseCampusDate clock0 "sept xx" <> Date.current clock0.
Proof. repeat split. vm_compute. discriminate. Qed.

(* ------------------------------------------------------------------ *)
(** ** The fallback classification *)

(** C2.  The fallback throws a RangeError on an event whose date parses to
    an Invalid Date: a day beyond the range of time values, or a month
    token that names an inherited member of the month table. *)
Theorem fallbackClassification_throws :
  fallbackClassification clock0 distantEvent = JS.Throw JS.RangeError_invalid_time
  /\ (forall clk t l o d u,
        fallbackClassification clk (mkEvent t "constructor 5" "" l o d u)
        = JS.Throw JS.RangeError_invalid_time).
Proof.
  split.
  - vm_compute. reflexivity.
  - intros. apply fallbackClassification_invalid.
    exact (proj1 (parseCampusDate_inherited clk)).
Qed.




(* ------------------------------------------------------------------ *)
(** ** The retry wrapper *)

Lemma afterAttempts_0 delay st : afterAttempts delay 0 st = st.
Proof. destruct st. unfold afterAttempts; cbn. now rewrite app_nil_r. Qed.

Lemma afterAttempts_1 delay st : afterAttempts delay 1 st = withCall st.
Proof. unfold afterAttempts, withCall; cbn. now rewrite app_nil_r. Qed.

Lemma afterAttempts_S delay k st :
  (1 <= k)%nat ->
  afterAttempts (delay * 2) k (withSleep delay (withCall st))
  = afterAttempts delay (S k) st.
Proof.
  intros Hk. unfold afterAttempts, withSleep, withCall.
  cbn [cachedEvents calls slept fetches logged].
  destruct k as [|k]; [lia|]. cbn [Nat.sub backoff]. rewrite Nat.sub_0_r.
  rewrite <- app_assoc. cbn [app]. f_equal. lia.
Qed.

Section Retry.

Variable clk : Clock.
Variable openai : Remote.

(** One turn of the loop. *)
Lemma retryLoop_turn ev maxRetries n attempt delay st :
  retryLoop clk openai ev maxRetries (S n) attempt delay st
  = match openai (calls st) (promptOf ev) with
    | Responds (Some j) => (JS.Return (Some j), withCall st)
    | other =>
        match failureOf other with
        | Some e =>
            if (attempt <? maxRetries) && retryable e
            then retryLoop clk openai ev maxRetries n (attempt + 1) (delay * 2)
                   (withSleep delay (withCall st))
            else (fallbackResult clk ev, withCall st)
        | None => (fallbackResult clk ev, withCall st)
        end
    end.
Proof.
  cbn [retryLoop]. unfold tryCatch, bind at 1. unfold classifyEvent.
  destruct (openai (calls st) (promptOf ev)) as [e|[j|]]; cbn [failureOf].
  - destruct ((attempt <? maxRetries) && retryable e); [reflexivity|].
    unfold bind, lift, ret, fallbackResult.
    destruct (fallbackClassification clk ev); reflexivity.
  - reflexivity.
  - destruct ((attempt <? maxRetries) && retryable (JS.newError "bad_json")); [reflexivity|].
    unfold bind, lift, ret, fallbackResult.
    destruct (fallbackClassification clk ev); reflexivity.
Qed.

Lemma outcome_fallback ev n delay st :
  outcome clk openai ev (S n) delay st (fallbackResult clk ev, withCall st).
Proof.
  exists 1%nat. repeat split; try lia.
  - now rewrite afterAttempts_1.
  - right; right. reflexivity.
Qed.

Lemma outcome_answer ev n delay st j :
  openai (calls st) (promptOf ev) = Responds (Some j) ->
  outcome clk openai ev (S n) delay st (JS.Return (Some j), withCall st).
Proof.
  intros Hj. exists 1%nat. repeat split; try lia.
  - now rewrite afterAttempts_1.
  - right; left. exists j. split; [reflexivity|].
    now replace (1 + calls st - 1)%nat with (calls st) by lia.
Qed.

Lemma outcome_retry ev n delay st run :
  (1 <= n)%nat ->
  outcome clk openai ev n (delay * 2) (withSleep delay (withCall st)) run ->
  outcome clk openai ev (S n) delay st run.
Proof.
  intros Hn (k & Hk & Hk1 & Hst & Hr).
  specialize (Hk1 ltac:(lia)).
  exists (S k). repeat split; try lia.
  - rewrite Hst. now apply afterAttempts_S.
  - destruct Hr as [[Hz _]|[(j & Hj & Hc)|Hf]]; [lia| |now right; right].
    right; left. exists j. split; [exact Hj|].
    cbn [withSleep withCall calls] in Hc.
    now replace (S k + calls st - 1)%nat with (k + S (calls st) - 1)%nat by lia.
Qed.

(** A run of the loop from a state of the loop ([n] turns are left when
    [attempt] is the counter): it makes at least one request and at most
    [n], sleeps the backoff delays between them and changes nothing else;
    it returns the parsed answer to the last request, or the fallback
    result, or [undefined] when no turn was left. *)
Lemma retryLoop_run ev maxRetries n :
  forall attempt delay st,
    Z.of_nat n = maxRetries + 1 - attempt ->
    outcome clk openai ev n delay st (retryLoop clk openai ev maxRetries n attempt delay st).
Proof.
  induction n as [|n IH]; intros attempt delay st Hn.
  - exists O. repeat split; try lia.
    + now rewrite afterAttempts_0.
    + left. split; reflexivity.
  - rewrite retryLoop_turn.
    destruct (openai (calls st) (promptOf ev)) as [e|[j|]] eqn:Ho; cbn [failureOf].
    + destruct (attempt <? maxRetries) eqn:Ha; cbn [andb];
        [destruct (retryable e)|]; try apply outcome_fallback.
      apply Z.ltb_lt in Ha. apply outcome_retry; [lia|]. apply IH. lia.
    + now apply outcome_answer.
    + destruct (attempt <? maxRetries) eqn:Ha; cbn [andb];
        [destruct (retryable (JS.newError "bad_json"))|]; try apply outcome_fallback.
      apply Z.ltb_lt in Ha. apply outcome_retry; [lia|]. apply IH. lia.
Qed.

Lemma classifyWithRetry_run ev maxRetries st :
  outcome clk openai ev (Z.to_nat (maxRetries + 1)) 1500 st
          (classifyWithRetry clk openai ev maxRetries st).
Proof.
  unfold classifyWithRetry.
  destruct (Z.leb_spec 0 (maxRetries + 1)).
  - apply retryLoop_run. lia.
  - replace (Z.to_nat (maxRetries + 1)) with O by lia.
    exists O. repeat split; try lia.
    + now rewrite afterAttempts_0.
    + left. split; reflexivity.
Qed.

End Retry.

Lemma retryable_iff (e : JS.Error) :
  retryable e = true <->
  statusOf e = Some 429
  \/ (exists s, statusOf e = Some s /\ 500 <= s <= 599)
  \/ JS.message e = "bad_json".
Proof.
  unfold retryable, is429, is5xx. split.
  - intros H. apply orb_true_iff in H as [H|H]; [apply orb_true_iff in H as [H|H]|].
    + left. destruct (statusOf e) as [s|]; [|discriminate].
      apply Z.eqb_eq in H. now subst.
    + right; left. destruct (statusOf e) as [s|]; [|discriminate].
      exists s. split; [reflexivity|]. apply andb_true_iff in H as [H1 H2].
      apply Z.leb_le in H1. apply Z.ltb_lt in H2. lia.
    + right; right. now apply String.eqb_eq.
  - intros [H|[(s & H & Hs)|H]].
    + rewrite H. reflexivity.
    + rewrite H.
      replace ((500 <=? s) && (s <? 600)) with true; [now rewrite orb_true_r|].
      symmetry. apply andb_true_iff. split; [apply Z.leb_le|apply Z.ltb_lt]; lia.
    + apply String.eqb_eq in H. rewrite H. now rewrite orb_true_r.
Qed.

(** The loop after [k] requests in a row that failed with a failure that
    is retried, while retries were left: [k] requests made, the first [k]
    delays of the backoff slept, and the loop at its next turn. *)
Lemma retryLoop_retries (clk : Clock) (openai : Remote) (ev : RawEvent)
      (maxRetries : Z) (k : nat) :
  forall n attempt delay st,
    (forall i, (i < k)%nat ->
               exists e, failureOf (openai (i + calls st)%nat (promptOf ev)) = Some e
                         /\ retryable e = true) ->
    attempt + Z.of_nat k <= maxRetries ->
    retryLoop clk openai ev maxRetries (k + n) attempt delay st
    = retryLoop clk openai ev maxRetries n (attempt + Z.of_nat k)
                (delay * 2 ^ Z.of_nat k)
                (mkState (cachedEvents st) (k + calls st)
                         (slept st ++ backoff delay k) (fetches st) (logged st)).
Proof.
  induction k as [|k IH]; intros n attempt delay st Hfail Hk.
  - cbn [Nat.add backoff Z.of_nat]. rewrite app_nil_r, Z.add_0_r.
    change (2 ^ 0) with 1. rewrite Z.mul_1_r. now destruct st.
  - cbn [Nat.add]. rewrite retryLoop_turn.
    destruct (Hfail O ltac:(lia)) as (e & He & Hr). cbn [Nat.add] in He.
    assert (Hturn : (attempt <? maxRetries) && retryable e = true).
    { rewrite Hr, andb_true_r. apply Z.ltb_lt. lia. }
    rewrite (IH n (attempt + 1) (delay * 2) (withSleep delay (withCall st))).
    + replace (attempt + 1 + Z.of_nat k) with (attempt + Z.of_nat (S k)) by lia.
      replace (delay * 2 * 2 ^ Z.of_nat k) with (delay * 2 ^ Z.of_nat (S k))
        by (rewrite Nat2Z.inj_succ, Z.pow_succ_r by lia; ring).
      unfold withSleep, withCall. cbn [cachedEvents calls slept fetches logged backoff].
      rewrite <- app_assoc, <- plus_n_Sm. cbn [app].
      destruct (openai (calls st) (promptOf ev)) as [e'|[j|]]; cbn [failureOf] in *;
        try discriminate; injection He as ->; rewrite Hturn; reflexivity.
    + intros i Hi. destruct (Hfail (S i) ltac:(lia)) as (e' & He' & Hr').
      exists e'. split; [|exact Hr'].
      unfold withSleep, withCall. cbn [calls].
      now rewrite <- plus_n_Sm.
    + lia.
Qed.

(** C3.  A failure is retried exactly when its status is 429 or in 500 to
    599, or its message is "bad_json", and a retry is left; any other
    failure falls back at once, at whatever attempt it comes.  A retry
    sleeps the current delay and doubles it.  So a call whose first [k]
    requests fail with failures that are retried ends at the next request
    when that one is answered, fails with another failure or is the last
    one allowed, after [k + 1] requests and the first [k] delays of 1500,
    3000, ...  With the default of 2 retries a call makes at most 3
    requests and sleeps 1500, then 3000.  A client that fails twice with
    429 and then answers gives its answer after sleeps of 1500 and 3000; a
    client that always fails with 404 gives the fallback result after one
    request and no sleep. *)
Theorem classifyWithRetry_policy (clk : Clock) (openai : Remote)
        (ev : RawEvent) (st : State) :
  (forall e, retryable e = true <->
             statusOf e = Some 429
             \/ (exists s, statusOf e = Some s /\ 500 <= s <= 599)
             \/ JS.message e = "bad_json")
  /\ (forall maxRetries n attempt delay e,
        failureOf (openai (calls st) (promptOf ev)) = Some e ->
        retryLoop clk openai ev maxRetries (S n) attempt delay st
        = if retryable e
          then if attempt <? maxRetries
               then retryLoop clk openai ev maxRetries n (attempt + 1) (delay * 2)
                      (withSleep delay (withCall st))
               else (fallbackResult clk ev, withCall st)
          else (fallbackResult clk ev, withCall st))
  /\ (forall maxRetries n attempt delay j,
        openai (calls st) (promptOf ev) = Responds (Some j) ->
        retryLoop clk openai ev maxRetries (S n) attempt delay st
        = (JS.Return (Some j), withCall st))
  /\ (forall maxRetries k,
        Z.of_nat k <= maxRetries ->
        (forall i, (i < k)%nat ->
                   exists e, failureOf (openai (i + calls st)%nat (promptOf ev)) = Some e
                             /\ retryable e = true) ->
        (forall j,
            openai (k + calls st)%nat (promptOf ev) = Responds (Some j) ->
            classifyWithRetry clk openai ev maxRetries st
            = (JS.Return (Some j),
               mkState (cachedEvents st) (S k + calls st)
                       (slept st ++ backoff 1500 k) (fetches st) (logged st)))
        /\ (forall e,
              failureOf (openai (k + calls st)%nat (promptOf ev)) = Some e ->
              retryable e = false \/ Z.of_nat k = maxRetries ->
              classifyWithRetry clk openai ev maxRetries st
              = (fallbackResult clk ev,
                 mkState (cachedEvents st) (S k + calls st)
                         (slept st ++ backoff 1500 k) (fetches st) (logged st))))
  /\ (exists k, (1 <= k <= 3)%nat
                /\ snd (classifyWithRetry clk openai ev defaultMaxRetries st)
                   = afterAttempts 1500 k st
                /\ backoff 1500 (k - 1) = firstn (k - 1) [1500; 3000])
  /\ (forall e1 e2 j,
        openai (calls st) (promptOf ev) = Rejects e1 ->
        openai (1 + calls st)%nat (promptOf ev) = Rejects e2 ->
        openai (2 + calls st)%nat (promptOf ev) = Responds (Some j) ->
        statusOf e1 = Some 429 -> statusOf e2 = Some 429 ->
        classifyWithRetry clk openai ev defaultMaxRetries st
        = (JS.Return (Some j),
           mkState (cachedEvents st) (3 + calls st) (slept st ++ [1500; 3000])
                   (fetches st) (logged st)))
  /\ (forall e,
        (forall k p, openai k p = Rejects e) ->
        statusOf e = Some 404 ->
        String.eqb (JS.message e) "bad_json" = false ->
        classifyWithRetry clk openai ev defaultMaxRetries st
        = (fallbackResult clk ev, withCall st)).
Proof.
  split; [exact retryable_iff|].
  split.
  { intros maxRetries n attempt delay e Hf. rewrite retryLoop_turn.
    destruct (openai (calls st) (promptOf ev)) as [e'|[j|]]; cbn [failureOf] in *;
      try discriminate; injection Hf as ->;
      destruct (retryable e), (attempt <? maxRetries); reflexivity. }
  split.
  { intros maxRetries n attempt delay j Hj. now rewrite retryLoop_turn, Hj. }
  split.
  { intros maxRetries k Hk Hfail.
    assert (Hrun : classifyWithRetry clk openai ev maxRetries st
                   = retryLoop clk openai ev maxRetries
                               (S (Z.to_nat (maxRetries - Z.of_nat k)))
                               (Z.of_nat k) (1500 * 2 ^ Z.of_nat k)
                               (mkState (cachedEvents st) (k + calls st)
                                        (slept st ++ backoff 1500 k)
                                        (fetches st) (logged st))).
    { unfold classifyWithRetry.
      replace (Z.to_nat (maxRetries + 1))
        with (k + S (Z.to_nat (maxRetries - Z.of_nat k)))%nat by lia.
      rewrite (retryLoop_retries clk openai ev maxRetries k _ 0 1500 st Hfail) by lia.
      reflexivity. }
    split.
    - intros j Hj. rewrite Hrun, retryLoop_turn. cbn [calls]. now rewrite Hj.
    - intros e He Hstop. rewrite Hrun, retryLoop_turn. cbn [calls].
      assert (Hturn : (Z.of_nat k <? maxRetries) && retryable e = false).
      { destruct Hstop as [Hr|Hlast].
        - now rewrite Hr, andb_false_r.
        - rewrite Hlast, Z.ltb_irrefl. reflexivity. }
      destruct (openai (k + calls st)%nat (promptOf ev)) as [e'|[j|]];
        cbn [failureOf] in *; try discriminate; injection He as ->;
        rewrite Hturn; reflexivity. }
  split.
  { destruct (classifyWithRetry_run clk openai ev defaultMaxRetries st)
      as (k & Hk & Hk1 & Hst & _).
    change (Z.to_nat (defaultMaxRetries + 1)) with 3%nat in *.
    specialize (Hk1 ltac:(discriminate)).
    exists k. repeat split; try lia; [exact Hst|].
    destruct k as [|[|[|[|k]]]]; try lia; reflexivity. }
  split.
  { intros e1 e2 j H1 H2 H3 S1 S2.
    change (1 + calls st)%nat with (S (calls st)) in H2.
    change (2 + calls st)%nat with (S (S (calls st))) in H3.
    unfold classifyWithRetry. change (Z.to_nat (defaultMaxRetries + 1)) with 3%nat.
    assert (R : forall e, statusOf e = Some 429 -> retryable e = true).
    { intros e He. apply retryable_iff. now left. }
    rewrite retryLoop_turn, H1. cbn [failureOf]. rewrite (R e1 S1).
    change ((0 <? defaultMaxRetries) && true) with true. cbv iota.
    rewrite retryLoop_turn. cbn [withSleep withCall calls]. rewrite H2.
    cbn [failureOf]. rewrite (R e2 S2).
    change ((0 + 1 <? defaultMaxRetries) && true) with true. cbv iota.
    rewrite retryLoop_turn. cbn [withSleep withCall calls]. rewrite H3.
    unfold withCall, withSleep; cbn [cachedEvents calls slept fetches logged].
    rewrite <- app_assoc. reflexivity. }
  { intros e He Hs Hm.
    unfold classifyWithRetry. change (Z.to_nat (defaultMaxRetries + 1)) with 3%nat.
    rewrite retryLoop_turn, He. cbn [failureOf].
    replace (retryable e) with false; [now rewrite andb_false_r|].
    unfold retryable, is429, is5xx. rewrite Hs, Hm. reflexivity. }
Qed.

Lemma classifyWithRetry_policy_witness :
  classifyWithRetry clock0 (twiceLimited (JObj [])) sampleEvent defaultMaxRetries initial
  = (JS.Return (Some (JObj [])), mkState [] 3 [1500; 3000] 0 [])
  /\ classifyWithRetry clock0 alwaysNotFound sampleEvent defaultMaxRetries initial
     = (fallbackResult clock0 sampleEvent, withCall initial)
  /\ classifyWithRetry clock0 limitedThenNotFound sampleEvent defaultMaxRetries initial
     = (fallbackResult clock0 sampleEvent, mkState [] 2 [1500] 0 []).
Proof.
  split; [|split].
  - destruct (classifyWithRetry_policy clock0 (twiceLimited (JObj [])) sampleEvent initial)
      as (_ & _ & _ & _ & _ & H & _).
    apply (H rateLimited rateLimited (JObj [])); reflexivity.
  - destruct (classifyWithRetry_policy clock0 alwaysNotFound sampleEvent initial)
      as (_ & _ & _ & _ & _ & _ & H).
    apply (H notFound); reflexivity.
  - destruct (classifyWithRetry_policy clock0 limitedThenNotFound sampleEvent initial)
      as (_ & _ & _ & H & _).
    destruct (H defaultMaxRetries 1%nat) as [_ H'].
    + unfold defaultMaxRetries. lia.
    + intros i Hi. assert (i = O) as -> by lia.
      exists rateLimited. split; reflexivity.
    + apply (H' notFound); [reflexivity|left; reflexivity].
Defined.

(** With a retry count that is not negative and a date that parses to a
    valid Date, the wrapper returns a value: the parsed answer of the
    remote classifier, or the fallback classification. *)
Lemma classifyWithRetry_returns (clk : Clock) (openai : Remote)
      (ev : RawEvent) (maxRetries : Z) (st : State) :
  0 <= maxRetries ->
  parseCampusDate clk (date ev) <> None ->
  exists j,
    fst (classifyWithRetry clk openai ev maxRetries st) = JS.Return (Some j)
    /\ ((exists k, openai k (promptOf ev) = Responds (Some j))
        \/ (exists c, fallbackClassification clk ev = JS.Return c /\ j = toJson c)).
Proof.
  intros Hm Hd.
  destruct (classifyWithRetry_run clk openai ev maxRetries st)
    as (k & _ & _ & _ & [[Hz _]|[(j & Hj & Ho)|Hf]]).
  - lia.
  - exists j. split; [exact Hj|]. left. now exists (k + calls st - 1)%nat.
  - destruct (fallbackClassification_returns clk ev Hd) as (c & Hc).
    exists (toJson c). split.
    + rewrite Hf. unfold fallbackResult. now rewrite Hc.
    + right. now exists c.
Qed.

(** C1.  The wrapper throws when the remote call fails for good and the
    fallback throws: the RangeError of the fallback passes through the
    [catch] block to the caller. *)
Theorem classifyWithRetry_throws :
  classifyWithRetry clock0 alwaysNotFound distantEvent defaultMaxRetries initial
  = (JS.Throw JS.RangeError_invalid_time, withCall initial)
  /\ (forall clk st t l o d u,
        classifyWithRetry clk alwaysNotFound (mkEvent t "constructor 5" "" l o d u)
                          defaultMaxRetries st
        = (JS.Throw JS.RangeError_invalid_time, withCall st)).
Proof.
  split.
  - vm_compute. reflexivity.
  - intros. unfold classifyWithRetry.
    change (Z.to_nat (defaultMaxRetries + 1)) with 3%nat.
    rewrite retryLoop_turn. unfold alwaysNotFound at 1. cbn [failureOf].
    change (retryable notFound) with false. rewrite andb_false_r.
    unfold fallbackResult.
    rewrite fallbackClassification_invalid; [reflexivity|].
    exact (proj1 (parseCampusDate_inherited clk)).
Qed.

(** C5, the claim as it was stated: the parsed answer of the remote
    classifier is delivered as it is, and need not satisfy the schema. *)
Lemma remote_answer_not_validated :
  classifyWithRetry clock0 emptyAnswer sampleEvent defaultMaxRetries initial
  = (JS.Return (Some (JObj [])), withCall initial)
  /\ validate (schema classificationSchema) (JObj []) = false
  /\ classifyWithRetry clock0 (fun _ _ => Responds (Some strayAnswer)) sampleEvent
                       defaultMaxRetries initial
     = (JS.Return (Some strayAnswer), withCall initial)
  /\ validate (schema classificationSchema) strayAnswer = false.
Proof. repeat split. Qed.

(** C5 (as amended).  A classification from the fallback satisfies the
    schema.  The answer of the remote classifier is delivered as parsed,
    without a check; so when every answer of the remote classifier
    satisfies the schema, whatever the wrapper returns satisfies it. *)
Theorem delivered_classification_valid (clk : Clock) (openai : Remote)
        (ev : RawEvent) (maxRetries : Z) (st : State) :
  (forall c, fallbackClassification clk ev = JS.Return c ->
             validate (schema classificationSchema) (toJson c) = true)
  /\ (forall j, 0 <= maxRetries ->
                openai (calls st) (promptOf ev) = Responds (Some j) ->
                classifyWithRetry clk openai ev maxRetries st
                = (JS.Return (Some j), withCall st))
  /\ ((forall k p j, openai k p = Responds (Some j) ->
                     validate (schema classificationSchema) j = true) ->
      forall j, fst (classifyWithRetry clk openai ev maxRetries st) = JS.Return (Some j) ->
                validate (schema classificationSchema) j = true).
Proof.
  split; [intros c; apply fallbackClassification_valid|].
  split.
  - intros j Hm Hj. unfold classifyWithRetry.
    replace (Z.to_nat (maxRetries + 1)) with (S (Z.to_nat maxRetries)) by lia.
    rewrite retryLoop_turn, Hj. reflexivity.
  - intros Hremote j Hj.
    destruct (classifyWithRetry_run clk openai ev maxRetries st)
      as (k & _ & _ & _ & [[_ Hz]|[(j' & Hj' & Ho)|Hf]]).
    + rewrite Hz in Hj. discriminate.
    + rewrite Hj' in Hj. injection Hj as <-. exact (Hremote _ _ _ Ho).
    + rewrite Hf in Hj. unfold fallbackResult in Hj.
      destruct (fallbackClassification clk ev) as [c|e] eqn:Hc; [|discriminate].
      injection Hj as <-. now apply (fallbackClassification_valid clk ev).
Qed.

Lemma delivered_classification_valid_witness :
  validate (schema classificationSchema) goodAnswer = true.
Proof.
  apply (proj2 (proj2 (delivered_classification_valid
                         clock0 (fun _ _ => Responds (Some goodAnswer))
                         sampleEvent defaultMaxRetries initial))).
  - intros k p j H. injection H as <-. reflexivity.
  - reflexivity.
Defined.

(* ------------------------------------------------------------------ *)
(** ** The refresh route *)

Section Refresh.

Variable clk : Clock.
Variable openai : Remote.
Variable sheets : Sheets.
Variable env : Env.

(** The route, case by case. *)
Lemma postRefresh_cases (req : Request) (st : State) :
  postRefresh clk openai sheets env req st
  = if rejected env req then (JS.Return unauthorized, st)
    else match sheets (fetches st) (SHEET_ID env) (rangeOf env) with
         | SheetFails e => (JS.Return (failed e), withLog e (withFetch st))
         | SheetData values =>
             match classifyAll clk openai (toClassifyOf env values) [] (withFetch st) with
             | (JS.Return results, st') =>
                 (JS.Return (refreshed (List.length results)), withCache results st')
             | (JS.Throw e, st') => (JS.Return (failed e), withLog e st')
             end
         end.
Proof.
  unfold postRefresh. destruct (rejected env req); [reflexivity|].
  unfold tryCatch, refreshBody, bind at 1, getValues. fold (rangeOf env).
  destruct (sheets (fetches st) (SHEET_ID env) (rangeOf env)) as [e|values].
  - reflexivity.
  - unfold bind at 1. fold (toClassifyOf env values).
    destruct (classifyAll clk openai (toClassifyOf env values) [] (withFetch st))
      as [[results|e] st']; reflexivity.
Qed.

(** The retry loop neither reads nor writes the cache. *)
Lemma retryLoop_cache ev maxRetries n cache :
  forall attempt delay st,
    retryLoop clk openai ev maxRetries n attempt delay (withCache cache st)
    = (fst (retryLoop clk openai ev maxRetries n attempt delay st),
       withCache cache (snd (retryLoop clk openai ev maxRetries n attempt delay st))).
Proof.
  induction n as [|n IH]; intros attempt delay st; [reflexivity|].
  rewrite !retryLoop_turn. cbn [withCache calls].
  destruct (openai (calls st) (promptOf ev)) as [e|[j|]]; cbn [failureOf];
    try reflexivity.
  - destruct ((attempt <? maxRetries) && retryable e); [|reflexivity].
    apply (IH (attempt + 1) (delay * 2) (withSleep delay (withCall st))).
  - destruct ((attempt <? maxRetries) && retryable (JS.newError "bad_json"));
      [|reflexivity].
    apply (IH (attempt + 1) (delay * 2) (withSleep delay (withCall st))).
Qed.

Lemma classifyAll_cache cache toClassify :
  forall results st,
    classifyAll clk openai toClassify results (withCache cache st)
    = (fst (classifyAll clk openai toClassify results st),
       withCache cache (snd (classifyAll clk openai toClassify results st))).
Proof.
  induction toClassify as [|ev rest IH]; intros results st; [reflexivity|].
  cbn [classifyAll]. unfold bind, classifyWithRetry.
  rewrite retryLoop_cache.
  destruct (retryLoop clk openai ev defaultMaxRetries _ 0 1500 st) as [[cls|e] st'];
    cbn [fst snd]; [|reflexivity].
  apply IH.
Qed.

(** What the loop over the events pushes: one entry for each event, in
    order, with what the wrapper returned for it; the cache is not
    touched on the way. *)
Lemma classifyAll_run toClassify :
  forall results st,
    cachedEvents (snd (classifyAll clk openai toClassify results st)) = cachedEvents st
    /\ forall out,
        fst (classifyAll clk openai toClassify results st) = JS.Return out ->
        exists new,
          out = (results ++ new)%list
          /\ map event new = toClassify
          /\ Forall (fun ce => exists st1,
                         fst (classifyWithRetry clk openai (event ce) defaultMaxRetries st1)
                         = JS.Return (classification ce)) new.
Proof.
  induction toClassify as [|ev rest IH]; intros results st.
  - split; [reflexivity|]. intros out H. injection H as <-.
    exists []. rewrite app_nil_r. repeat split. constructor.
  - cbn [classifyAll]. unfold bind.
    pose proof (classifyWithRetry_run clk openai ev defaultMaxRetries st)
      as (k & _ & _ & Hst & _).
    destruct (classifyWithRetry clk openai ev defaultMaxRetries st) as [[cls|e] st1] eqn:Hrun;
      cbn [fst snd] in *.
    + destruct (IH (results ++ [mkClassified ev cls])%list st1) as [Hc Hout].
      split; [rewrite Hc, Hst; reflexivity|].
      intros out H. destruct (Hout out H) as (new & -> & Hm & Hall).
      exists (mkClassified ev cls :: new). rewrite <- app_assoc. repeat split.
      * cbn. now rewrite Hm.
      * constructor; [|exact Hall]. exists st. cbn [event classification].
        now rewrite Hrun.
    + split; [rewrite Hst; reflexivity|]. intros out H. discriminate.
Qed.

Lemma slice0_cap {A} (l : list A) (cap : nat) :
  capIs env cap (List.length l) = true ->
  JS.slice0 l (maxEvents env (List.length l)) = firstn cap l.
Proof.
  unfold capIs, maxEvents, JS.slice0.
  destruct (truthy (MAX_EVENTS env)) as [s|].
  - destruct (JS.StringToNumber s) as [| |q]; try discriminate.
    intros Hq. apply Qeq_bool_iff in Hq. unfold Qeq in Hq. cbn in Hq.
    cbn [JS.ToIntegerOrInfinity].
    rewrite Z.mul_1_r in Hq. rewrite Hq, Z.quot_mul by discriminate.
    replace (Z.of_nat cap <? 0) with false by (symmetry; apply Z.ltb_ge; lia).
    destruct (Nat.le_gt_cases cap (List.length l)).
    + f_equal. lia.
    + replace (Z.to_nat (Z.min (Z.of_nat cap) (Z.of_nat (List.length l))))
        with (List.length l) by lia.
      rewrite !firstn_all2; [reflexivity|lia|lia].
  - intros Hc. apply Nat.eqb_eq in Hc. subst cap.
    cbn [JS.ToIntegerOrInfinity inject_Z Qnum Qden].
    rewrite Z.quot_1_r.
    replace (Z.of_nat (List.length l) <? 0) with false by (symmetry; apply Z.ltb_ge; lia).
    f_equal. lia.
Qed.

(** C4.  A run of the refresh route that succeeds, with the cap [cap]
    configured, stores one classified event for each of the first [cap]
    rows, in the order of the rows, each with its event and what the
    wrapper returned for it; their number is the minimum of the number of
    rows and the cap; the cache is this batch whatever it held before. *)
Theorem postRefresh_batch (req : Request) (st : State)
        (values : option (list (list string))) (cap : nat)
        (resp : Response) (st' : State) :
  rejected env req = false ->
  sheets (fetches st) (SHEET_ID env) (rangeOf env) = SheetData values ->
  capIs env cap (List.length (rowsOf values)) = true ->
  postRefresh clk openai sheets env req st = (JS.Return resp, st') ->
  statusCode resp = 200 ->
  List.length (cachedEvents st') = Nat.min (List.length (rowsOf values)) cap
  /\ map event (cachedEvents st') = firstn cap (map rowToEvent (rowsOf values))
  /\ Forall (fun ce => exists st1,
                 fst (classifyWithRetry clk openai (event ce) defaultMaxRetries st1)
                 = JS.Return (classification ce)) (cachedEvents st')
  /\ resp = refreshed (Nat.min (List.length (rowsOf values)) cap)
  /\ forall cache,
       cachedEvents (snd (postRefresh clk openai sheets env req (withCache cache st)))
       = cachedEvents st'.
Proof.
  intros Hrej Hsheet Hcap Hrun Hok.
  assert (Hto : toClassifyOf env values = firstn cap (map rowToEvent (rowsOf values))).
  { unfold toClassifyOf. fold (rowsOf values). apply slice0_cap.
    now rewrite length_map. }
  assert (Hall : forall cache,
             postRefresh clk openai sheets env req (withCache cache st)
             = match classifyAll clk openai (toClassifyOf env values) [] (withFetch st) with
               | (JS.Return results, st1) =>
                   (JS.Return (refreshed (List.length results)), withCache results st1)
               | (JS.Throw e, st1) => (JS.Return (failed e), withLog e (withCache cache st1))
               end).
  { intros cache. rewrite postRefresh_cases, Hrej. cbn [withCache fetches].
    rewrite Hsheet.
    change (withFetch (withCache cache st)) with (withCache cache (withFetch st)).
    rewrite classifyAll_cache.
    destruct (classifyAll clk openai (toClassifyOf env values) [] (withFetch st))
      as [[results|e] st1]; reflexivity. }
  rewrite postRefresh_cases, Hrej, Hsheet in Hrun.
  pose proof (classifyAll_run (toClassifyOf env values) [] (withFetch st))
    as [_ Hout].
  destruct (classifyAll clk openai (toClassifyOf env values) [] (withFetch st))
    as [[results|e] st1] eqn:Hloop.
  - injection Hrun as <- <-. cbn [fst] in Hout.
    destruct (Hout results eq_refl) as (new & Hnew & Hmap & Hfor).
    cbn [app] in Hnew. subst new. cbn [withCache cachedEvents].
    assert (Hlen : List.length results = Nat.min (List.length (rowsOf values)) cap).
    { rewrite <- (length_map event results), Hmap, Hto, length_firstn, length_map. lia. }
    repeat split.
    + exact Hlen.
    + now rewrite Hmap.
    + exact Hfor.
    + now rewrite Hlen.
    + intros cache. rewrite Hall. reflexivity.
  - injection Hrun as <- <-. discriminate Hok.
Qed.

(** The loop returns when every event has a date that parses to a valid
    Date. *)
Lemma classifyAll_returns toClassify :
  (forall ev, In ev toClassify -> parseCampusDate clk (date ev) <> None) ->
  forall results st,
    exists out, fst (classifyAll clk openai toClassify results st) = JS.Return out.
Proof.
  induction toClassify as [|ev rest IH]; intros Hvalid results st.
  - now exists results.
  - cbn [classifyAll]. unfold bind.
    destruct (classifyWithRetry_returns clk openai ev defaultMaxRetries st
                ltac:(discriminate) (Hvalid ev (or_introl eq_refl)))
      as (j & Hj & _).
    destruct (classifyWithRetry clk openai ev defaultMaxRetries st) as [r st1].
    cbn [fst] in Hj. subst r.
    apply IH. intros ev' Hin. apply Hvalid. now right.
Qed.

(** The route succeeds when the token passes, the sheet service answers and
    every event to classify has a date that parses to a valid Date. *)
Lemma postRefresh_succeeds (req : Request) (st : State)
      (values : option (list (list string))) :
  rejected env req = false ->
  sheets (fetches st) (SHEET_ID env) (rangeOf env) = SheetData values ->
  (forall ev, In ev (toClassifyOf env values) ->
              parseCampusDate clk (date ev) <> None) ->
  exists count,
    fst (postRefresh clk openai sheets env req st) = JS.Return (refreshed count).
Proof.
  intros Hrej Hsheet Hvalid. rewrite postRefresh_cases, Hrej, Hsheet.
  destruct (classifyAll_returns (toClassifyOf env values) Hvalid [] (withFetch st))
    as (out & Hout).
  destruct (classifyAll clk openai (toClassifyOf env values) [] (withFetch st))
    as [r st1].
  cbn [fst] in Hout. subst r. now exists (List.length out).
Qed.

(** C6.  A failure of the refresh route leaves the cache as it was.  A
    token that differs from the configured secret gives 401 with
    [{ok: false, error: "unauthorized"}] and changes nothing.  A failure
    of the sheet service gives 500 with the message of the error, and the
    cache is the one before.  The route always responds, and whenever the
    response is not 200 the cache is the one before. *)
Theorem postRefresh_failure (req : Request) (st : State) :
  (forall secret,
      truthy (REFRESH_TOKEN env) = Some secret ->
      differs (query_token req) secret = true ->
      postRefresh clk openai sheets env req st
      = (JS.Return (mkResponse 401 (JObj [("ok", JBool false);
                                          ("error", JStr "unauthorized")])),
         st))
  /\ (forall e,
        rejected env req = false ->
        sheets (fetches st) (SHEET_ID env) (rangeOf env) = SheetFails e ->
        postRefresh clk openai sheets env req st
        = (JS.Return (mkResponse 500 (JObj [("ok", JBool false);
                                            ("error", JStr (messageOf e))])),
           withLog e (withFetch st))
        /\ cachedEvents (withLog e (withFetch st)) = cachedEvents st
        /\ (String.eqb (JS.message e) "" = false -> messageOf e = JS.message e))
  /\ (exists resp,
        fst (postRefresh clk openai sheets env req st) = JS.Return resp
        /\ (statusCode resp <> 200 ->
            cachedEvents (snd (postRefresh clk openai sheets env req st))
            = cachedEvents st)).
Proof.
  split; [|split].
  - intros secret Hs Hd. unfold postRefresh, rejected. now rewrite Hs, Hd.
  - intros e Hrej Hsheet. rewrite postRefresh_cases, Hrej, Hsheet.
    repeat split. intros Hm. unfold messageOf. now rewrite Hm.
  - rewrite postRefresh_cases.
    destruct (rejected env req); [now exists unauthorized|].
    destruct (sheets (fetches st) (SHEET_ID env) (rangeOf env)) as [e|values];
      [now exists (failed e)|].
    pose proof (classifyAll_run (toClassifyOf env values) [] (withFetch st))
      as [Hc _].
    destruct (classifyAll clk openai (toClassifyOf env values) [] (withFetch st))
      as [[results|e] st1]; cbn [fst snd] in *.
    + exists (refreshed (List.length results)). split; [reflexivity|].
      intros H. now contradiction H.
    + exists (failed e). split; [reflexivity|]. intros _. exact Hc.
Qed.



End Refresh.

Lemma postRefresh_batch_witness :
  List.length (cachedEvents
                 (snd (postRefresh clock0 alwaysNotFound sheetOfThree capTwo
                                   withSecret initial))) = 2%nat.
Proof.
  apply (postRefresh_batch clock0 alwaysNotFound sheetOfThree capTwo withSecret initial
           (Some threeRows) 2 (refreshed 2)
           (snd (postRefresh clock0 alwaysNotFound sheetOfThree capTwo withSecret initial)));
    reflexivity.
Defined.

Lemma postRefresh_failure_witness :
  postRefresh clock0 alwaysNotFound sheetOfThree capTwo wrongSecret initial
  = (JS.Return (mkResponse 401 (JObj [("ok", JBool false);
                                      ("error", JStr "unauthorized")])),
     initial)
  /\ fst (postRefresh clock0 alwaysNotFound sheetDown capTwo withSecret initial)
     = JS.Return (mkResponse 500
                    (JObj [("ok", JBool false);
                           ("error", JStr "The caller does not have permission")])).
Proof.
  split.
  - apply (proj1 (postRefresh_failure clock0 alwaysNotFound sheetOfThree capTwo
                                      wrongSecret initial) "s3cret"); reflexivity.
  - destruct (proj1 (proj2 (postRefresh_failure clock0 alwaysNotFound sheetDown capTwo
                                                withSecret initial))
                    (JS.mkError "Error" "The caller does not have permission" (Some 403) None)
                    eq_refl eq_refl) as (H & _).
    rewrite H. reflexivity.
Defined.


(* ================================================================== *)
(** * Further properties of the code *)

(** ** Rows *)

Lemma cell_padded (row : list string) (n i : nat) :
  cell (row ++ repeat EmptyString n) i = cell row i.
Proof.
  unfold cell. destruct (Nat.lt_ge_cases i (List.length row)) as [H|H].
  - now rewrite app_nth1.
  - rewrite app_nth2 by exact H. rewrite (nth_overflow row) by exact H.
    generalize (i - List.length row)%nat. clear. intros k. revert k.
    induction n as [|n IH]; intros [|k]; cbn; auto.
Qed.

Lemma cell_extended (row extra : list string) (i : nat) :
  (i < List.length row)%nat -> cell (row ++ extra) i = cell row i.
Proof. intros H. unfold cell. now rewrite app_nth1. Qed.

(** X1.  An event is read from the first six cells of its row only: cells
    after the sixth change nothing, and neither do empty cells added at
    the end of a shorter row. *)
Theorem rowToEvent_six_cells (row : list string) :
  (forall extra, (6 <= List.length row)%nat ->
                 rowToEvent (row ++ extra) = rowToEvent row)
  /\ (forall n, rowToEvent (row ++ repeat EmptyString n) = rowToEvent row).
Proof.
  split.
  - intros extra H. unfold rowToEvent.
    rewrite !cell_extended by lia. reflexivity.
  - intros n. unfold rowToEvent. now rewrite !cell_padded.
Qed.

Lemma rowToEvent_six_cells_witness :
  rowToEvent ["Talk"; "oct 3"; "Hall"; "ACM"; "A talk"; "https://x"; "note"; "more"]
  = rowToEvent ["Talk"; "oct 3"; "Hall"; "ACM"; "A talk"; "https://x"].
Proof.
  apply (proj1 (rowToEvent_six_cells ["Talk"; "oct 3"; "Hall"; "ACM"; "A talk"; "https://x"])
           ["note"; "more"]).
  cbn. lia.
Defined.


(** ** The parts of a date *)

Lemma split_nonempty (sep : ascii) (s : string) : JS.split sep s <> [].
Proof.
  destruct s as [|c r]; cbn; [discriminate|].
  destruct (Ascii.eqb c sep); [discriminate|].
  destruct (JS.split sep r); discriminate.
Qed.

Lemma concat_cons_head (sep : string) (c : ascii) (w : string) (ws : list string) :
  String.concat sep (String c w :: ws) = String c (String.concat sep (w :: ws)).
Proof. destruct ws; reflexivity. Qed.

Lemma join_split (sep : ascii) (s : string) :
  JS.join (String sep EmptyString) (JS.split sep s) = s.
Proof.
  unfold JS.join. induction s as [|c r IH]; [reflexivity|].
  cbn [JS.split]. destruct (Ascii.eqb_spec c sep) as [->|Hc].
  - destruct (JS.split sep r) as [|w ws] eqn:E; [now apply split_nonempty in E|].
    cbn [String.concat]. cbn. now rewrite <- IH.
  - destruct (JS.split sep r) as [|w ws] eqn:E; [now apply split_nonempty in E|].
    rewrite concat_cons_head. now rewrite IH.
Qed.

Lemma split_token (sep : ascii) (a rest : string) :
  free sep a = true ->
  JS.split sep (a ++ String sep rest) = a :: JS.split sep rest.
Proof.
  induction a as [|c a IH]; cbn [free append JS.split]; intros H.
  - now rewrite Ascii.eqb_refl.
  - apply andb_true_iff in H as [Hc Ha]. apply negb_true_iff in Hc.
    rewrite Hc, (IH Ha). reflexivity.
Qed.

(** X2.  Joining the parts of a text with the separator gives the text
    back; so the time text of a date is all that follows its second
    token, spaces included. *)
Theorem timeRaw_after_two_tokens (a b rest : string) :
  JS.join " " (JS.split " " rest) = rest
  /\ (free " " a = true -> free " " b = true ->
      JS.split " " (a ++ " " ++ b ++ " " ++ rest) = a :: b :: JS.split " " rest
      /\ timeRawOf (JS.split " " (a ++ " " ++ b ++ " " ++ rest)) = rest).
Proof.
  split; [apply (join_split " ")|].
  intros Ha Hb.
  assert (E : JS.split " " (a ++ " " ++ b ++ " " ++ rest) = a :: b :: JS.split " " rest).
  { change (a ++ " " ++ b ++ " " ++ rest)%string
      with (a ++ String " " (b ++ String " " rest))%string.
    now rewrite (split_token " " a _ Ha), (split_token " " b _ Hb). }
  split; [exact E|].
  unfold timeRawOf, JS.sliceFrom. rewrite E. cbn [skipn].
  apply (join_split " ").
Qed.

Lemma timeRaw_after_two_tokens_witness :
  timeRawOf (JS.split " " "sept 26 6:00 pm") = "6:00 pm".
Proof.
  apply (proj2 (proj2 (timeRaw_after_two_tokens "sept" "26" "6:00 pm") eq_refl eq_refl)).
Defined.


(** ** Case and white space in a date *)

Lemma toLowerCaseChar_idem (c : ascii) :
  JS.toLowerCaseChar (JS.toLowerCaseChar c) = JS.toLowerCaseChar c.
Proof. destruct c as [[] [] [] [] [] [] [] []]; reflexivity. Qed.

Lemma isWhiteSpace_lower (c : ascii) :
  JS.isWhiteSpace (JS.toLowerCaseChar c) = JS.isWhiteSpace c.
Proof. destruct c as [[] [] [] [] [] [] [] []]; reflexivity. Qed.

Lemma toLowerCase_idem (s : string) :
  JS.toLowerCase (JS.toLowerCase s) = JS.toLowerCase s.
Proof.
  induction s as [|c r IH]; cbn; [reflexivity|].
  now rewrite toLowerCaseChar_idem, IH.
Qed.

Lemma trimStart_lower (s : string) :
  JS.trimStart (JS.toLowerCase s) = JS.toLowerCase (JS.trimStart s).
Proof.
  induction s as [|c r IH]; cbn; [reflexivity|].
  rewrite isWhiteSpace_lower. destruct (JS.isWhiteSpace c); [exact IH|reflexivity].
Qed.

Lemma trimEnd_lower (s : string) :
  JS.trimEnd (JS.toLowerCase s) = JS.toLowerCase (JS.trimEnd s).
Proof.
  induction s as [|c r IH]; cbn [JS.toLowerCase JS.trimEnd]; [reflexivity|].
  rewrite IH, isWhiteSpace_lower.
  destruct (JS.trimEnd r) as [|x r']; cbn [JS.toLowerCase].
  - destruct (JS.isWhiteSpace c); reflexivity.
  - reflexivity.
Qed.

Lemma trim_lower (s : string) :
  JS.trim (JS.toLowerCase s) = JS.toLowerCase (JS.trim s).
Proof. unfold JS.trim. now rewrite trimStart_lower, trimEnd_lower. Qed.

Lemma trimEnd_idem (s : string) : JS.trimEnd (JS.trimEnd s) = JS.trimEnd s.
Proof.
  induction s as [|c r IH]; [reflexivity|]. cbn [JS.trimEnd].
  destruct (JS.trimEnd r) as [|x r'] eqn:E.
  - destruct (JS.isWhiteSpace c) eqn:Hc; [reflexivity|].
    cbn [JS.trimEnd]. now rewrite Hc.
  - cbn [JS.trimEnd]. cbn [JS.trimEnd] in IH. now rewrite IH.
Qed.

Lemma trimStart_clean (s : string) : startsClean (JS.trimStart s) = true.
Proof.
  induction s as [|c r IH]; [reflexivity|]. cbn [JS.trimStart].
  destruct (JS.isWhiteSpace c) eqn:Hc; [exact IH|]. cbn. now rewrite Hc.
Qed.

Lemma trimStart_of_clean (s : string) : startsClean s = true -> JS.trimStart s = s.
Proof.
  destruct s as [|c r]; [reflexivity|]. cbn. intros H.
  apply negb_true_iff in H. now rewrite H.
Qed.

Lemma trimEnd_clean (s : string) : startsClean s = true -> startsClean (JS.trimEnd s) = true.
Proof.
  destruct s as [|c r]; [reflexivity|]. cbn [startsClean JS.trimEnd]. intros H.
  apply negb_true_iff in H. rewrite H.
  destruct (JS.trimEnd r); cbn; now rewrite H.
Qed.

Lemma trim_idem (s : string) : JS.trim (JS.trim s) = JS.trim s.
Proof.
  unfold JS.trim.
  rewrite (trimStart_of_clean (JS.trimEnd (JS.trimStart s)))
    by (apply trimEnd_clean, trimStart_clean).
  apply trimEnd_idem.
Qed.

Lemma partsOf_lower (s : string) : partsOf (JS.toLowerCase s) = partsOf s.
Proof. unfold partsOf. now rewrite trim_lower, toLowerCase_idem. Qed.

Lemma partsOf_trim (s : string) : partsOf (JS.trim s) = partsOf s.
Proof. unfold partsOf. now rewrite trim_idem. Qed.

(** The date depends on the text through its parts only. *)
Lemma parseCampusDate_parts (clk : Clock) (s s' : string) :
  partsOf s = partsOf s' -> parseCampusDate clk s = parseCampusDate clk s'.
Proof.
  assert (Hempty : forall u, partsOf u = partsOf "" -> parseCampusDate clk u = Date.current clk).
  { intros u Hu. unfold parseCampusDate. destruct (String.eqb u ""); [reflexivity|].
    rewrite Hu. reflexivity. }
  intros H. destruct (String.eqb_spec s "") as [->|Hs].
  - symmetry. rewrite (Hempty "" eq_refl). now apply Hempty.
  - destruct (String.eqb_spec s' "") as [->|Hs'].
    + rewrite (Hempty "" eq_refl). now apply Hempty.
    + unfold parseCampusDate.
      rewrite (proj2 (String.eqb_neq s "") Hs), (proj2 (String.eqb_neq s' "") Hs'), H.
      reflexivity.
Qed.

Lemma chunks_nonempty (s : string) : chunks s <> [].
Proof.
  destruct s as [|c r]; cbn; [discriminate|].
  destruct (JS.isWhiteSpace c); [discriminate|].
  destruct (chunks r); discriminate.
Qed.

Lemma split_cons_other (sep c : ascii) (r : string) :
  Ascii.eqb c sep = false ->
  JS.split sep (String c r)
  = String c (hd EmptyString (JS.split sep r)) :: tl (JS.split sep r).
Proof.
  intros H. cbn [JS.split]. rewrite H.
  destruct (JS.split sep r) eqn:E; [now apply split_nonempty in E|reflexivity].
Qed.

Lemma chunks_cons_other (c : ascii) (r : string) :
  JS.isWhiteSpace c = false ->
  chunks (String c r) = String c (hd EmptyString (chunks r)) :: tl (chunks r).
Proof.
  intros H. cbn [chunks]. rewrite H.
  destruct (chunks r) eqn:E; [now apply chunks_nonempty in E|reflexivity].
Qed.

Lemma not_space (c : ascii) : JS.isWhiteSpace c = false -> Ascii.eqb c " " = false.
Proof.
  intros H. destruct (Ascii.eqb_spec c " ") as [->|]; [discriminate H|reflexivity].
Qed.

(** The parts of a text with its runs of white space collapsed, from the
    pieces of the text. *)
Lemma split_collapse (s : string) :
  JS.split " " (JS.collapseFrom false s) = squeeze (chunks s)
  /\ JS.split " " (JS.collapseFrom true s) = squeezeTail (chunks s).
Proof.
  induction s as [|c r [IH1 IH2]]; [split; reflexivity|].
  destruct (JS.isWhiteSpace c) eqn:Hc.
  - cbn [JS.collapseFrom chunks]. rewrite Hc. split.
    + cbn [JS.split]. change (Ascii.eqb " " " ") with true. cbv iota.
      rewrite IH2. reflexivity.
    + rewrite IH2. cbn [squeezeTail].
      destruct (chunks r) eqn:E; [now apply chunks_nonempty in E|reflexivity].
  - assert (E : JS.split " " (String c (JS.collapseFrom false r))
                = String c (hd EmptyString (chunks r)) :: squeezeTail (tl (chunks r))).
    { rewrite (split_cons_other " " c _ (not_space c Hc)), IH1.
      destruct (chunks r) eqn:E; [now apply chunks_nonempty in E|reflexivity]. }
    cbn [JS.collapseFrom]. rewrite Hc, (chunks_cons_other c r Hc), E. split.
    + reflexivity.
    + cbn [squeezeTail]. destruct (tl (chunks r)); reflexivity.
Qed.

Lemma chunks_cons_space (c : ascii) (r : string) :
  JS.isWhiteSpace c = true -> chunks (String c r) = EmptyString :: chunks r.
Proof. intros H. cbn [chunks]. now rewrite H. Qed.

Lemma chunks_eta (s : string) :
  chunks s = hd EmptyString (chunks s) :: tl (chunks s).
Proof. destruct (chunks s) eqn:E; [now apply chunks_nonempty in E|reflexivity]. Qed.

Lemma wordsOf_eta (s : string) :
  wordsOf s = filter nonEmpty (hd EmptyString (chunks s) :: tl (chunks s)).
Proof. unfold wordsOf. now rewrite <- chunks_eta. Qed.

Lemma wordsOf_trimStart (s : string) : wordsOf (JS.trimStart s) = wordsOf s.
Proof.
  induction s as [|c r IH]; [reflexivity|]. cbn [JS.trimStart].
  destruct (JS.isWhiteSpace c) eqn:Hc; [|reflexivity].
  rewrite IH. unfold wordsOf. cbn [chunks]. rewrite Hc. reflexivity.
Qed.

Lemma chunks_trimEnd (s : string) :
  hd EmptyString (chunks (JS.trimEnd s)) = hd EmptyString (chunks s)
  /\ filter nonEmpty (tl (chunks (JS.trimEnd s))) = filter nonEmpty (tl (chunks s)).
Proof.
  induction s as [|c r [IHh IHt]]; [split; reflexivity|].
  cbn [JS.trimEnd].
  destruct (JS.trimEnd r) as [|x r'] eqn:E.
  - cbn [chunks hd tl filter] in IHh, IHt.
    destruct (JS.isWhiteSpace c) eqn:Hc.
    + rewrite !(chunks_cons_space c _ Hc). cbn [hd tl]. split; [reflexivity|].
      rewrite (chunks_eta r). cbn [filter]. rewrite <- IHh, <- IHt. reflexivity.
    + rewrite !(chunks_cons_other c _ Hc). cbn [hd tl chunks].
      rewrite <- IHh, <- IHt. split; reflexivity.
  - destruct (JS.isWhiteSpace c) eqn:Hc.
    + rewrite !(chunks_cons_space c _ Hc). cbn [hd tl]. split; [reflexivity|].
      rewrite (chunks_eta r), (chunks_eta (String x r')). cbn [filter].
      now rewrite IHh, IHt.
    + rewrite !(chunks_cons_other c _ Hc). cbn [hd tl].
      now rewrite IHh, IHt.
Qed.

Lemma wordsOf_trimEnd (s : string) : wordsOf (JS.trimEnd s) = wordsOf s.
Proof.
  rewrite !wordsOf_eta. destruct (chunks_trimEnd s) as [Hh Ht].
  cbn [filter]. now rewrite Hh, Ht.
Qed.

Lemma wordsOf_trim (s : string) : wordsOf (JS.trim s) = wordsOf s.
Proof. unfold JS.trim. now rewrite wordsOf_trimEnd, wordsOf_trimStart. Qed.

Lemma chunks_lower (s : string) :
  chunks (JS.toLowerCase s) = map JS.toLowerCase (chunks s).
Proof.
  induction s as [|c r IH]; [reflexivity|].
  cbn [JS.toLowerCase chunks]. rewrite isWhiteSpace_lower, IH.
  destruct (JS.isWhiteSpace c); [reflexivity|].
  destruct (chunks r); reflexivity.
Qed.

Lemma nonEmpty_lower (w : string) : nonEmpty (JS.toLowerCase w) = nonEmpty w.
Proof. destruct w; reflexivity. Qed.

Lemma wordsOf_lower (s : string) :
  wordsOf (JS.toLowerCase s) = map JS.toLowerCase (wordsOf s).
Proof.
  unfold wordsOf. rewrite chunks_lower.
  induction (chunks s) as [|w l IH]; [reflexivity|].
  cbn [map filter]. rewrite nonEmpty_lower, IH.
  destruct (nonEmpty w); reflexivity.
Qed.

Lemma squeezeTail_filter (l : list string) :
  l = [] \/ nonEmpty (last l EmptyString) = true ->
  squeezeTail l = filter nonEmpty l.
Proof.
  induction l as [|w l IH]; [reflexivity|]. intros [H|H]; [discriminate|].
  destruct l as [|w' l'].
  - cbn in *. now rewrite H.
  - change (squeezeTail (w :: w' :: l'))
      with (if nonEmpty w then w :: squeezeTail (w' :: l') else squeezeTail (w' :: l')).
    rewrite (IH (or_intror H)). reflexivity.
Qed.

(** The last piece of a text trimmed at its end is not empty, unless
    nothing is left. *)
Lemma chunks_trimEnd_last (s : string) :
  JS.trimEnd s = EmptyString
  \/ nonEmpty (last (chunks (JS.trimEnd s)) EmptyString) = true.
Proof.
  induction s as [|c r IH]; [now left|]. cbn [JS.trimEnd].
  destruct (JS.trimEnd r) as [|x r'] eqn:E.
  - destruct (JS.isWhiteSpace c) eqn:Hc; [now left|right].
    cbn [chunks]. now rewrite Hc.
  - right. destruct IH as [IH|IH]; [discriminate|].
    destruct (JS.isWhiteSpace c) eqn:Hc.
    + rewrite (chunks_cons_space c _ Hc).
      rewrite (chunks_eta (String x r')) in IH |- *. exact IH.
    + rewrite (chunks_cons_other c _ Hc).
      rewrite (chunks_eta (String x r')) in IH.
      destruct (tl (chunks (String x r'))); [reflexivity|exact IH].
Qed.

(** The parts of a date are its words in lower case, and one empty part
    when it has no word. *)
Lemma partsOf_words (s : string) :
  partsOf s = match map JS.toLowerCase (wordsOf s) with
              | [] => [EmptyString]
              | ws => ws
              end.
Proof.
  unfold partsOf, JS.collapseWhiteSpace.
  rewrite (proj1 (split_collapse _)), <- trim_lower, <- wordsOf_lower.
  rewrite <- (wordsOf_trim (JS.toLowerCase s)).
  set (v := JS.toLowerCase s). unfold JS.trim.
  pose proof (trimStart_clean v) as Hs.
  pose proof (trimEnd_clean _ Hs) as Hc.
  destruct (chunks_trimEnd_last (JS.trimStart v)) as [E|Hl].
  - rewrite E. reflexivity.
  - set (u := JS.trimEnd (JS.trimStart v)) in *.
    destruct u as [|c r] eqn:Eu; [reflexivity|].
    cbn [startsClean] in Hc. apply negb_true_iff in Hc.
    rewrite (chunks_cons_other c r Hc) in Hl |- *.
    unfold wordsOf. rewrite (chunks_cons_other c r Hc).
    cbn [squeeze filter nonEmpty String.eqb negb].
    rewrite squeezeTail_filter; [reflexivity|].
    destruct (tl (chunks r)) as [|w l]; [now left|right]. exact Hl.
Qed.

(** X3.  The date depends on the text through its words only, compared
    without case: the kind and amount of white space between, before and
    after the words do not matter.  A text without a word gives the
    current instant. *)
Theorem parseCampusDate_words (clk : Clock) (s s' : string) :
  (map JS.toLowerCase (wordsOf s) = map JS.toLowerCase (wordsOf s') ->
   parseCampusDate clk s = parseCampusDate clk s')
  /\ (wordsOf s = [] -> parseCampusDate clk s = Date.current clk).
Proof.
  split.
  - intros H. apply parseCampusDate_parts. now rewrite !partsOf_words, H.
  - intros H. rewrite (parseCampusDate_parts clk s "").
    + reflexivity.
    + now rewrite !partsOf_words, H.
Qed.

Lemma parseCampusDate_words_witness :
  parseCampusDate clock0 "  SEPT    26   6:00PM " = parseCampusDate clock0 "sept 26 6:00pm"
  /\ parseCampusDate clock0 "   " = Date.current clock0.
Proof.
  split.
  - apply (proj1 (parseCampusDate_words clock0 "  SEPT    26   6:00PM " "sept 26 6:00pm")).
    reflexivity.
  - apply (proj2 (parseCampusDate_words clock0 "   " "")). reflexivity.
Defined.

Lemma wordsOf_not_empty (s : string) (w : string) (ws : list string) :
  wordsOf s = w :: ws -> String.eqb s EmptyString = false.
Proof. destruct s; [discriminate|reflexivity]. Qed.

(** X4.  A date that is a month alone is the first of that month at 9:00,
    and a date of a month and a day is that day at 9:00, an unreadable day
    counting as the first. *)
Theorem parseCampusDate_without_time (clk : Clock) (s m : string) (n : Z) :
  ownProperty months (JS.toLowerCase m) = Some n ->
  (wordsOf s = [m] ->
   parseCampusDate clk s = Date.local clk (fullYear clk) (Some n) (Some 1) 9 0 0)
  /\ (forall d, wordsOf s = [m; d] ->
                parseCampusDate clk s
                = Date.local clk (fullYear clk) (Some n)
                    (orOne (JS.parseInt (JS.toLowerCase d))) 9 0 0).
Proof.
  intros Hm.
  assert (Hmonth : monthsAt (JS.toLowerCase m) = Own n)
    by (unfold monthsAt; now rewrite Hm).
  split.
  - intros Hw. unfold parseCampusDate.
    rewrite (wordsOf_not_empty s m [] Hw), partsOf_words, Hw.
    cbn [map]. unfold monthOf, dayOf, timeRawOf. cbn [nth_error].
    rewrite Hmonth. reflexivity.
  - intros d Hw. unfold parseCampusDate.
    rewrite (wordsOf_not_empty s m [d] Hw), partsOf_words, Hw.
    cbn [map]. unfold monthOf, dayOf, timeRawOf. cbn [nth_error JS.parseIntAt].
    rewrite Hmonth. cbn [JS.sliceFrom skipn JS.join String.concat timeOf String.eqb].
    cbn [isNullish orb ToNumber].
    destruct (JS.parseInt (JS.toLowerCase d)) as [k|]; cbn [orOne isNaN];
      [destruct (k =? 0)|]; reflexivity.
Qed.

Lemma parseCampusDate_without_time_witness :
  parseCampusDate clock0 " Oct " = Date.local clock0 2026 (Some 9) (Some 1) 9 0 0
  /\ parseCampusDate clock0 "Oct 3rd" = Date.local clock0 2026 (Some 9) (Some 3) 9 0 0.
Proof.
  destruct (parseCampusDate_without_time clock0 " Oct " "Oct" 9 eq_refl) as [H1 _].
  destruct (parseCampusDate_without_time clock0 "Oct 3rd" "Oct" 9 eq_refl) as [_ H2].
  split; [apply H1; reflexivity|apply (H2 "3rd"); reflexivity].
Defined.

(** ** The fields of a fallback classification *)

(** What the fallback returns, field by field. *)
Lemma fallbackClassification_fields (clk : Clock) (ev : RawEvent) (c : Classification) :
  fallbackClassification clk ev = JS.Return c ->
  category c = fallbackCategory (hasToken ev)
  /\ tags c = firstn 8 (unique (fallbackTags (hasToken ev) (fallbackCategory (hasToken ev))))
  /\ audience c = firstn 3 (fallbackAudience (hasToken ev))
  /\ location_type c = fallbackLocationType (hasToken ev)
  /\ Date.toISOString (parseCampusDate clk (date ev)) = JS.Return (normalized_date c).
Proof.
  unfold fallbackClassification.
  destruct (Date.toISOString (parseCampusDate clk (date ev))) as [d|e]; [|discriminate].
  intros H. injection H as <-. repeat split.
Qed.

Lemma fallbackLocationType_firstRule (has : string -> bool) :
  fallbackLocationType has = firstRule "Off-campus" has locationRules.
Proof.
  unfold fallbackLocationType, locationRules. cbn [firstRule existsb].
  repeat match goal with
         | |- context [has ?w] => destruct (has w); cbn [orb]; try reflexivity
         end.
Qed.

(** X5.  The location type is the label of the first rule, in the order
    Virtual, Hybrid, On-campus, one of whose keywords is a token, and
    "Off-campus" when there is none; it is the location type of whatever
    the fallback returns. *)
Theorem fallbackLocationType_precedence (clk : Clock) (ev : RawEvent) (c : Classification) :
  fallbackClassification clk ev = JS.Return c ->
  location_type c = firstRule "Off-campus" (hasToken ev) locationRules.
Proof.
  intros H. destruct (fallbackClassification_fields clk ev c H) as (_ & _ & _ & Hl & _).
  rewrite Hl. apply fallbackLocationType_firstRule.
Qed.

Lemma fallbackAudience_filter (has : string -> bool) :
  fallbackAudience has = filter (qualifies has) audiences.
Proof.
  unfold fallbackAudience, pushIf, audiences, qualifies.
  cbn [filter audienceKeywords String.eqb Ascii.eqb Bool.eqb existsb orb andb].
  repeat match goal with
         | |- context [has ?w] => destruct (has w); cbn [orb app]
         end; reflexivity.
Qed.

(** X6.  The audience is made of the audiences that qualify, in the order
    Undergrad, Grad, Alumni, Staff, Public, cut after the third; Undergrad
    always qualifies, so it is always the first. *)
Theorem fallbackAudience_order (clk : Clock) (ev : RawEvent) (c : Classification) :
  fallbackClassification clk ev = JS.Return c ->
  audience c = firstn 3 (filter (qualifies (hasToken ev)) audiences)
  /\ hd_error (audience c) = Some "Undergrad".
Proof.
  intros H. destruct (fallbackClassification_fields clk ev c H) as (_ & _ & Ha & _).
  rewrite Ha, fallbackAudience_filter. split; reflexivity.
Qed.

Lemma fallbackTags_rules (has : string -> bool) :
  firstn 8 (unique (fallbackTags has (fallbackCategory has)))
  = ((if String.eqb (fallbackCategory has) "Other" then []
      else [JS.toLowerCase (fallbackCategory has)])
     ++ tagsOfRules has)%list.
Proof.
  rewrite fallbackTags_short.
  unfold fallbackTags, pushIf, tagsOfRules, tagRules.
  cbn [filter fst snd existsb map].
  assert (Hc : exists b, String.eqb (fallbackCategory has) "Other" = b) by eauto.
  destruct Hc as [b Hb]. rewrite Hb.
  destruct b; cbn [negb app];
    repeat match goal with
           | |- context [has ?w] => destruct (has w); cbn [orb app map]
           end; reflexivity.
Qed.

Lemma fallbackLocationType_precedence_witness :
  location_type sampleClassification = "Virtual".
Proof.
  apply (fallbackLocationType_precedence clock0 sampleEvent sampleClassification).
  vm_compute. reflexivity.
Defined.

Lemma fallbackAudience_order_witness :
  audience sampleClassification = ["Undergrad"; "Grad"; "Alumni"].
Proof.
  apply (fallbackAudience_order clock0 sampleEvent sampleClassification).
  vm_compute. reflexivity.
Defined.

(** X7.  The tags are the category in lower case, unless it is "Other",
    then those of "free", "food", "resume" and "tech" that have a keyword
    among the tokens, in this order; they are five at most, so the cut at
    eight never drops one. *)
Theorem fallbackTags_order (clk : Clock) (ev : RawEvent) (c : Classification) :
  fallbackClassification clk ev = JS.Return c ->
  tags c = ((if String.eqb (category c) "Other" then []
             else [JS.toLowerCase (category c)])
            ++ tagsOfRules (hasToken ev))%list
  /\ (List.length (tags c) <= 5)%nat.
Proof.
  intros H. destruct (fallbackClassification_fields clk ev c H) as (Hc & Ht & _).
  assert (E : tags c = ((if String.eqb (category c) "Other" then []
                         else [JS.toLowerCase (category c)])
                        ++ tagsOfRules (hasToken ev))%list)
    by (rewrite Ht, Hc; apply fallbackTags_rules).
  split; [exact E|]. rewrite E, length_app.
  assert (Hr : (List.length (tagsOfRules (hasToken ev)) <= 4)%nat).
  { unfold tagsOfRules. rewrite length_map.
    etransitivity; [apply filter_length_le|]. reflexivity. }
  destruct (String.eqb (category c) "Other"); cbn [List.length]; lia.
Qed.

Lemma fallbackTags_order_witness :
  tags sampleClassification = ["workshop"; "free"; "food"; "resume"].
Proof.
  apply (fallbackTags_order clock0 sampleEvent sampleClassification).
  vm_compute. reflexivity.
Defined.

(** X8.  An event none of whose tokens is a keyword is classified as
    "Other", without a tag, for undergraduates only and off campus. *)
Theorem fallbackClassification_plain (clk : Clock) (ev : RawEvent) (c : Classification) :
  forallb (fun w => negb (hasToken ev w)) keywords = true ->
  fallbackClassification clk ev = JS.Return c ->
  category c = "Other" /\ tags c = [] /\ audience c = ["Undergrad"]
  /\ location_type c = "Off-campus".
Proof.
  intros Hk H.
  assert (K : forall w, In w keywords -> hasToken ev w = false).
  { intros w Hw. apply negb_true_iff.
    exact (proj1 (forallb_forall _ _) Hk w Hw). }
  destruct (fallbackClassification_fields clk ev c H) as (Hc & Ht & Ha & Hl & _).
  assert (Ec : fallbackCategory (hasToken ev) = "Other").
  { unfold fallbackCategory.
    repeat match goal with
           | |- context [hasToken ev ?w] => rewrite (K w) by in_keywords
           end.
    reflexivity. }
  rewrite Hc, Ht, Ha, Hl, Ec.
  unfold fallbackTags, fallbackAudience, fallbackLocationType, pushIf.
  repeat match goal with
         | |- context [hasToken ev ?w] => rewrite (K w) by in_keywords
         end.
  repeat split.
Qed.

Lemma fallbackClassification_plain_witness :
  exists c, fallbackClassification clock0 plainEvent = JS.Return c
            /\ category c = "Other" /\ tags c = [] /\ audience c = ["Undergrad"]
            /\ location_type c = "Off-campus".
Proof.
  eexists. split; [vm_compute; reflexivity|].
  eapply (fallbackClassification_plain clock0 plainEvent); vm_compute; reflexivity.
Defined.

(** X9.  An event whose date has no month the table knows (an empty date
    among them) is classified with the current instant as its date: the
    fallback returns, it does not throw. *)
Theorem fallbackClassification_date_now (clk : Clock) (ev : RawEvent) :
  monthOf (partsOf (date ev)) = Undefined ->
  exists c, fallbackClassification clk ev = JS.Return c
            /\ normalized_date c = Date.isoText (now clk).
Proof.
  intros Hm.
  assert (E : parseCampusDate clk (date ev) = Date.current clk).
  { unfold parseCampusDate. destruct (String.eqb (date ev) ""); [reflexivity|].
    rewrite Hm. destruct (timeOf _). reflexivity. }
  pose proof (fallbackClassification_spec clk ev) as S. rewrite E in S.
  destruct S as (c & Hc & _ & Hd & _). now exists c.
Qed.

Lemma fallbackClassification_date_now_witness :
  exists c, fallbackClassification clock0 plainEvent = JS.Return c
            /\ normalized_date c = "2026-11-03T09:00:00.123Z".
Proof.
  destruct (fallbackClassification_date_now clock0 plainEvent eq_refl) as (c & Hc & Hd).
  exists c. split; [exact Hc|]. rewrite Hd. vm_compute. reflexivity.
Defined.

(** X10.  Whatever the fallback returns is a classification of the schema:
    a category, one to three audiences and a location type of the closed
    sets, at most eight tags, distinct and in lower case, an ISO 8601 date
    and the confidence 0.25. *)
Theorem fallbackClassification_result (clk : Clock) (ev : RawEvent) (c : Classification) :
  fallbackClassification clk ev = JS.Return c ->
  closedSets c = true
  /\ isISODateTime (normalized_date c) = true
  /\ confidence c = 1 # 4
  /\ rationale c = fallbackRationale
  /\ validate (schema classificationSchema) (toJson c) = true.
Proof.
  intros H.
  destruct (fallbackClassification_invariants clk ev c H) as (Hs & Hd & Hc & Hv).
  repeat split; try assumption.
  pose proof (fallbackClassification_spec clk ev) as S.
  destruct (parseCampusDate clk (date ev)).
  - destruct S as (c' & E & _ & _ & _ & Hr & _).
    rewrite E in H. injection H as <-. exact Hr.
  - rewrite S in H. discriminate.
Qed.

Lemma fallbackClassification_result_witness :
  validate (schema classificationSchema) (toJson sampleClassification) = true.
Proof.
  apply (fallbackClassification_result clock0 sampleEvent sampleClassification).
  vm_compute. reflexivity.
Defined.

(** X11.  On a clock of the years 0 to 9999 whose local time is within a
    day of UTC, the fallback returns for every event whose date has a
    month word that is not an inherited member of the month table and a
    day within ten million either way. *)
Theorem fallbackClassification_in_range (clk : Clock) (ev : RawEvent) :
  0 <= fullYear clk <= 9999 ->
  (forall t, - Date.msPerDay <= LocalTZA clk t <= Date.msPerDay) ->
  monthOf (partsOf (date ev)) <> Inherited ->
  (forall d, dayOf (partsOf (date ev)) = Some d -> - 10000000 <= d <= 10000000) ->
  parseCampusDate clk (date ev) <> None
  /\ exists c, fallbackClassification clk ev = JS.Return c.
Proof.
  intros Hy Htz Hm Hd.
  pose proof (parseCampusDate_valid clk (date ev) Hy Htz Hm Hd) as Hv.
  split; [exact Hv|]. now apply fallbackClassification_returns.
Qed.

Lemma fallbackClassification_in_range_witness :
  exists c, fallbackClassification clock0 sampleEvent = JS.Return c.
Proof.
  apply (fallbackClassification_in_range clock0 sampleEvent).
  - cbn. lia.
  - intros t. unfold Date.msPerDay. cbn [LocalTZA clock0]. lia.
  - vm_compute. discriminate.
  - intros d H. vm_compute in H. injection H as <-. lia.
Defined.

(** ** More on the retry wrapper *)

(** X12.  With a retry count that is not negative and a date that parses
    to a valid Date, the wrapper returns a value for every behaviour of
    the remote classifier: one of its parsed answers, or the fallback
    classification. *)
Theorem classifyWithRetry_value (clk : Clock) (openai : Remote)
        (ev : RawEvent) (maxRetries : Z) (st : State) :
  0 <= maxRetries ->
  parseCampusDate clk (date ev) <> None ->
  exists j,
    fst (classifyWithRetry clk openai ev maxRetries st) = JS.Return (Some j)
    /\ ((exists k, openai k (promptOf ev) = Responds (Some j))
        \/ (exists c, fallbackClassification clk ev = JS.Return c /\ j = toJson c)).
Proof. apply classifyWithRetry_returns. Qed.

Lemma classifyWithRetry_value_witness :
  exists j, fst (classifyWithRetry clock0 alwaysNotFound sampleEvent 2 initial)
            = JS.Return (Some j).
Proof.
  destruct (classifyWithRetry_value clock0 alwaysNotFound sampleEvent 2 initial)
    as (j & Hj & _).
  - lia.
  - vm_compute. discriminate.
  - now exists j.
Defined.

Lemma retryLoop_exhausted (clk : Clock) (openai : Remote) (ev : RawEvent)
      (maxRetries : Z) (n : nat) :
  (forall k p, exists e, failureOf (openai k p) = Some e /\ retryable e = true) ->
  forall attempt delay st,
    Z.of_nat n = maxRetries - attempt ->
    retryLoop clk openai ev maxRetries (S n) attempt delay st
    = (fallbackResult clk ev, afterAttempts delay (S n) st).
Proof.
  intros Hfail. induction n as [|n IH]; intros attempt delay st Hn.
  - rewrite retryLoop_turn.
    destruct (Hfail (calls st) (promptOf ev)) as (e & He & Hr).
    replace (attempt <? maxRetries) with false by (symmetry; apply Z.ltb_ge; lia).
    rewrite afterAttempts_1.
    destruct (openai (calls st) (promptOf ev)) as [e'|[j|]]; cbn [failureOf] in *;
      try discriminate; reflexivity.
  - rewrite retryLoop_turn.
    destruct (Hfail (calls st) (promptOf ev)) as (e & He & Hr).
    replace (attempt <? maxRetries) with true by (symmetry; apply Z.ltb_lt; lia).
    rewrite <- afterAttempts_S by lia.
    rewrite <- (IH (attempt + 1) (delay * 2) (withSleep delay (withCall st))) by lia.
    destruct (openai (calls st) (promptOf ev)) as [e'|[j|]]; cbn [failureOf] in *;
      try discriminate; injection He as ->; rewrite Hr; reflexivity.
Qed.

(** X13.  When every request to the remote classifier fails with a failure
    that can be retried, the wrapper uses up its retries: it makes one
    request more than [maxRetries], sleeps the whole backoff between them
    and returns the fallback result. *)
Theorem classifyWithRetry_exhausted (clk : Clock) (openai : Remote)
        (ev : RawEvent) (maxRetries : Z) (st : State) :
  0 <= maxRetries ->
  (forall k p, exists e, failureOf (openai k p) = Some e /\ retryable e = true) ->
  classifyWithRetry clk openai ev maxRetries st
  = (fallbackResult clk ev,
     mkState (cachedEvents st) (Z.to_nat (maxRetries + 1) + calls st)
             (slept st ++ backoff 1500 (Z.to_nat maxRetries))
             (fetches st) (logged st)).
Proof.
  intros Hm Hfail. unfold classifyWithRetry.
  replace (Z.to_nat (maxRetries + 1)) with (S (Z.to_nat maxRetries)) by lia.
  rewrite (retryLoop_exhausted clk openai ev maxRetries (Z.to_nat maxRetries) Hfail)
    by lia.
  unfold afterAttempts. cbn [Nat.sub]. now rewrite Nat.sub_0_r.
Qed.

Lemma classifyWithRetry_exhausted_witness :
  classifyWithRetry clock0 neverJson sampleEvent 2 initial
  = (fallbackResult clock0 sampleEvent, mkState [] 3 [1500; 3000] 0 [])
  /\ classifyWithRetry clock0 alwaysDown sampleEvent 3 initial
     = (fallbackResult clock0 sampleEvent, mkState [] 4 [1500; 3000; 6000] 0 []).
Proof.
  split.
  - apply (classifyWithRetry_exhausted clock0 neverJson sampleEvent 2 initial).
    + lia.
    + intros k p. eexists. split; reflexivity.
  - apply (classifyWithRetry_exhausted clock0 alwaysDown sampleEvent 3 initial).
    + lia.
    + intros k p. eexists. split; reflexivity.
Defined.

Lemma total_backoff (k : nat) : forall d, total (backoff d k) = d * (2 ^ Z.of_nat k - 1).
Proof.
  induction k as [|k IH]; intros d; [cbn; lia|].
  cbn [backoff total fold_right]. fold (total (backoff (d * 2) k)).
  rewrite IH. rewrite Nat2Z.inj_succ, Z.pow_succ_r by lia. lia.
Qed.

(** X14.  For every retry count and every behaviour of the remote
    classifier: a negative count makes no request and returns
    [undefined]; otherwise the wrapper makes between one request and one
    more than the count, sleeps the backoff delays between them, which
    sum to 1500 times 2 to the number of retries made, less 1500, and at
    most to 1500 times 2 to the count, less 1500; it touches neither the
    cache nor the sheet service, and logs nothing. *)
Theorem classifyWithRetry_cost (clk : Clock) (openai : Remote)
        (ev : RawEvent) (maxRetries : Z) (st : State) :
  (maxRetries < 0 ->
   classifyWithRetry clk openai ev maxRetries st = (JS.Return None, st))
  /\ (0 <= maxRetries ->
      exists k,
        (1 <= k)%nat /\ Z.of_nat k <= maxRetries + 1
        /\ snd (classifyWithRetry clk openai ev maxRetries st)
           = mkState (cachedEvents st) (k + calls st)
                     (slept st ++ backoff 1500 (k - 1)) (fetches st) (logged st)
        /\ total (backoff 1500 (k - 1)) = 1500 * (2 ^ Z.of_nat (k - 1) - 1)
        /\ total (backoff 1500 (k - 1)) <= 1500 * (2 ^ maxRetries - 1)).
Proof.
  split.
  - intros Hm. unfold classifyWithRetry.
    replace (Z.to_nat (maxRetries + 1)) with O by lia. reflexivity.
  - intros Hm.
    destruct (classifyWithRetry_run clk openai ev maxRetries st)
      as (k & Hk & Hk1 & Hst & _).
    specialize (Hk1 ltac:(lia)).
    exists k. repeat split; try lia; [exact Hst|apply total_backoff|].
    rewrite total_backoff.
    assert (2 ^ Z.of_nat (k - 1) <= 2 ^ maxRetries)
      by (apply Z.pow_le_mono_r; lia).
    lia.
Qed.

Lemma classifyWithRetry_cost_witness :
  classifyWithRetry clock0 alwaysDown sampleEvent (-1) initial = (JS.Return None, initial)
  /\ exists k, (1 <= k)%nat /\ Z.of_nat k <= 3
               /\ snd (classifyWithRetry clock0 alwaysDown sampleEvent 2 initial)
                  = mkState [] (k + 0) ([] ++ backoff 1500 (k - 1)) 0 [].
Proof.
  destruct (classifyWithRetry_cost clock0 alwaysDown sampleEvent (-1) initial) as [H _].
  destruct (classifyWithRetry_cost clock0 alwaysDown sampleEvent 2 initial) as [_ H'].
  split; [apply H; lia|].
  destruct (H' ltac:(lia)) as (k & Hk & Hk' & Hst & _).
  exists k. repeat split; assumption.
Defined.

(** ** More on the refresh route *)

Lemma total_app (a b : list Z) : total (a ++ b) = total a + total b.
Proof.
  induction a as [|x a IH]; [reflexivity|].
  cbn [app]. unfold total in *. cbn [fold_right]. rewrite IH. lia.
Qed.

Lemma slice0_length {A} (l : list A) (last : JS.number) :
  (List.length (JS.slice0 l last) <= List.length l)%nat.
Proof.
  unfold JS.slice0. destruct (JS.ToIntegerOrInfinity last); cbn [List.length];
    try lia. rewrite length_firstn. lia.
Qed.

Section RefreshCost.

Variable clk : Clock.
Variable openai : Remote.
Variable sheets : Sheets.
Variable env : Env.

(** What the loop over the events costs: at most three requests and 4500
    of sleep for each event, at least one request for each when it
    returns; nothing else changes. *)
Lemma classifyAll_cost toClassify :
  forall results st,
    exists (c : nat) (l : list Z),
      snd (classifyAll clk openai toClassify results st)
      = mkState (cachedEvents st) (c + calls st) (slept st ++ l) (fetches st) (logged st)
      /\ (c <= 3 * List.length toClassify)%nat
      /\ 0 <= total l <= 4500 * Z.of_nat (List.length toClassify)
      /\ (forall out, fst (classifyAll clk openai toClassify results st) = JS.Return out ->
                      List.length toClassify <= c)%nat.
Proof.
  induction toClassify as [|ev rest IH]; intros results st.
  - exists O, []. cbn [classifyAll ret snd fst List.length].
    repeat split; try (cbn; lia).
    destruct st; cbn. now rewrite app_nil_r.
  - cbn [classifyAll]. unfold bind.
    destruct (classifyWithRetry_run clk openai ev defaultMaxRetries st)
      as (k & Hk & Hk1 & Hst & _).
    change (Z.to_nat (defaultMaxRetries + 1)) with 3%nat in *.
    specialize (Hk1 ltac:(discriminate)).
    assert (Hb : 0 <= total (backoff 1500 (k - 1)) <= 4500).
    { destruct k as [|[|[|[|k]]]]; try lia; cbn; lia. }
    destruct (classifyWithRetry clk openai ev defaultMaxRetries st) as [[cls|e] st1];
      cbn [fst snd] in *; subst st1.
    + destruct (IH (results ++ [mkClassified ev cls])%list (afterAttempts 1500 k st))
        as (c & l & Hrun & Hc & Hl & Hret).
      exists (c + k)%nat, (backoff 1500 (k - 1) ++ l)%list.
      rewrite Hrun. unfold afterAttempts.
      cbn [cachedEvents calls slept fetches logged List.length].
      rewrite total_app, app_assoc, Nat.add_assoc.
      repeat split; try lia.
      intros out Hout. specialize (Hret out Hout). lia.
    + exists k, (backoff 1500 (k - 1)).
      cbn [List.length]. repeat split; try lia. discriminate.
Qed.

(** X15.  A refresh asks the sheet service once, unless the token is
    rejected, and for each row at most three requests to the remote
    classifier and at most 4500 of sleep; a refresh that answers 200 has
    made at least one request for each event it stored. *)
Theorem postRefresh_cost (req : Request) (st : State) :
  let run := postRefresh clk openai sheets env req st in
  let rows := rowCount (sheets (fetches st) (SHEET_ID env) (rangeOf env)) in
  fetches (snd run) = (if rejected env req then fetches st else S (fetches st))
  /\ exists (c : nat) (l : list Z),
       calls (snd run) = (c + calls st)%nat
       /\ slept (snd run) = (slept st ++ l)%list
       /\ (c <= 3 * rows)%nat
       /\ 0 <= total l <= 4500 * Z.of_nat rows
       /\ (fst run = JS.Return (refreshed (List.length (cachedEvents (snd run)))) ->
           List.length (cachedEvents (snd run)) <= c)%nat.
Proof.
  cbv zeta. rewrite postRefresh_cases.
  destruct (rejected env req).
  - split; [reflexivity|]. exists O, []. cbn [fst snd].
    rewrite app_nil_r. repeat split; try (unfold total; cbn [fold_right]; lia).
    intros H. cbv [unauthorized failed refreshed] in H. discriminate H.
  - destruct (sheets (fetches st) (SHEET_ID env) (rangeOf env)) as [e|values];
      cbn [rowCount].
    + split; [reflexivity|]. exists O, []. cbn [fst snd withLog withFetch calls slept].
      rewrite app_nil_r. repeat split; try (unfold total; cbn [fold_right]; lia).
      intros H. cbv [unauthorized failed refreshed] in H. discriminate H.
    + destruct (classifyAll_cost (toClassifyOf env values) [] (withFetch st))
        as (c & l & Hrun & Hc & Hl & Hret).
      pose proof (classifyAll_run clk openai (toClassifyOf env values) [] (withFetch st))
        as [_ Hout].
      assert (Hn : (List.length (toClassifyOf env values)
                    <= List.length (rowsOf values))%nat).
      { unfold toClassifyOf. etransitivity; [apply slice0_length|].
        now rewrite length_map. }
      destruct (classifyAll clk openai (toClassifyOf env values) [] (withFetch st))
        as [[results|e] st1]; cbn [fst snd] in *; subst st1;
        cbn [withCache withLog withFetch fetches calls slept cachedEvents].
      * split; [reflexivity|]. exists c, l. repeat split; try lia.
        intros _. specialize (Hret results eq_refl).
        destruct (Hout results eq_refl) as (new & -> & Hm & _).
        cbn [app]. rewrite <- (length_map event new), Hm. exact Hret.
      * split; [reflexivity|]. exists c, l. repeat split; try lia.
        intros H. cbv [unauthorized failed refreshed] in H. discriminate H.
Qed.

End RefreshCost.

Lemma postRefresh_cost_witness :
  let run := postRefresh clock0 alwaysNotFound sheetOfThree capTwo withSecret initial in
  fetches (snd run) = 1%nat
  /\ exists (c : nat) (l : list Z),
       calls (snd run) = (c + 0)%nat
       /\ slept (snd run) = ([] ++ l)%list
       /\ (c <= 3 * 3)%nat
       /\ 0 <= total l <= 4500 * Z.of_nat 3
       /\ (fst run = JS.Return (refreshed (List.length (cachedEvents (snd run)))) ->
           List.length (cachedEvents (snd run)) <= c)%nat.
Proof.
  exact (postRefresh_cost clock0 alwaysNotFound sheetOfThree capTwo withSecret initial).
Defined.

(** ** The log, the cap and the cache over a run of the server *)

Lemma firstn_length_firstn {A} (n : nat) :
  forall l : list A, firstn (List.length (firstn n l)) l = firstn n l.
Proof.
  induction n as [|n IH]; intros [|x l]; try reflexivity.
  cbn [firstn List.length]. now rewrite IH.
Qed.

Lemma toClassifyOf_firstn (env : Env) (values : option (list (list string))) :
  toClassifyOf env values
  = firstn (List.length (toClassifyOf env values)) (map rowToEvent (rowsOf values)).
Proof.
  unfold toClassifyOf, JS.slice0.
  destruct (JS.ToIntegerOrInfinity _).
  - reflexivity.
  - cbv zeta. now rewrite firstn_length_firstn.
  - now rewrite firstn_all.
Qed.

Section RefreshEffects.

Variable clk : Clock.
Variable openai : Remote.
Variable sheets : Sheets.
Variable env : Env.

(** X16.  The refresh route never throws.  It writes to the console exactly
    when it answers 500, and then one error, the one whose message is in
    the body of the answer. *)
Theorem postRefresh_log (req : Request) (st : State) :
  let run := postRefresh clk openai sheets env req st in
  exists resp,
    fst run = JS.Return resp
    /\ if statusCode resp =? 500
       then exists e, resp = failed e /\ logged (snd run) = (logged st ++ [e])%list
       else logged (snd run) = logged st.
Proof.
  cbv zeta. rewrite postRefresh_cases.
  destruct (rejected env req).
  - exists unauthorized. split; reflexivity.
  - destruct (sheets (fetches st) (SHEET_ID env) (rangeOf env)) as [e|values].
    + exists (failed e). split; [reflexivity|]. cbn [statusCode failed Z.eqb Pos.eqb].
      exists e. split; reflexivity.
    + destruct (classifyAll_cost clk openai (toClassifyOf env values) [] (withFetch st))
        as (c & l & Hrun & _).
      destruct (classifyAll clk openai (toClassifyOf env values) [] (withFetch st))
        as [[results|e] st1]; cbn [fst snd] in *; subst st1.
      * exists (refreshed (List.length results)). split; reflexivity.
      * exists (failed e). split; [reflexivity|].
        cbn [statusCode failed Z.eqb Pos.eqb]. exists e. split; reflexivity.
Qed.

(** X17.  Whatever [MAX_EVENTS] holds, the events the route classifies are
    the events of the first rows of the sheet, in the order of the rows:
    no row is skipped before one that is classified. *)
Theorem toClassifyOf_prefix (values : option (list (list string))) :
  exists n,
    (n <= List.length (rowsOf values))%nat
    /\ toClassifyOf env values = map rowToEvent (firstn n (rowsOf values)).
Proof.
  exists (List.length (toClassifyOf env values)). split.
  - unfold toClassifyOf. etransitivity; [apply slice0_length|].
    now rewrite length_map.
  - rewrite <- firstn_map. apply toClassifyOf_firstn.
Qed.

(** X18.  When [MAX_EVENTS] reads as the negative integer [-k], the route
    classifies every row but the last [k]. *)
Theorem toClassifyOf_negative_cap (values : option (list (list string))) (k : nat) :
  (0 < k)%nat ->
  readsAs (MAX_EVENTS env) (- Z.of_nat k) = true ->
  toClassifyOf env values
  = map rowToEvent (firstn (List.length (rowsOf values) - k) (rowsOf values)).
Proof.
  intros Hk Hcap. rewrite <- firstn_map.
  unfold toClassifyOf, maxEvents, JS.slice0. unfold readsAs in Hcap.
  destruct (truthy (MAX_EVENTS env)) as [s|]; [|discriminate].
  destruct (JS.StringToNumber s) as [| |q]; try discriminate.
  apply Qeq_bool_iff in Hcap. unfold Qeq in Hcap. cbn in Hcap.
  cbn [JS.ToIntegerOrInfinity].
  rewrite Z.mul_1_r in Hcap. rewrite Hcap, Z.quot_mul by discriminate.
  replace (- Z.of_nat k <? 0) with true by (symmetry; apply Z.ltb_lt; lia).
  rewrite length_map. f_equal. lia.
Qed.

End RefreshEffects.

Lemma toClassifyOf_negative_cap_witness :
  toClassifyOf capMinusOne (Some threeRows)
  = map rowToEvent (firstn (List.length (rowsOf (Some threeRows)) - 1)
                           (rowsOf (Some threeRows))).
Proof.
  apply (toClassifyOf_negative_cap capMinusOne (Some threeRows) 1).
  - lia.
  - vm_compute. reflexivity.
Defined.

Lemma In_firstn_In {A} (n : nat) (l : list A) (x : A) : In x (firstn n l) -> In x l.
Proof.
  intros H. rewrite <- (firstn_skipn n l). apply in_or_app. now left.
Qed.

Section Server.

Variable clk : Clock.
Variable openai : Remote.
Variable sheets : Sheets.
Variable env : Env.

(** With the default retry count the wrapper never returns [undefined]. *)
Lemma classifyWithRetry_defined (ev : RawEvent) (st : State) (r : option Json) :
  fst (classifyWithRetry clk openai ev defaultMaxRetries st) = JS.Return r ->
  r <> None.
Proof.
  intros Hr.
  destruct (classifyWithRetry_run clk openai ev defaultMaxRetries st)
    as (k & _ & _ & _ & [[H _]|[(j & Hj & _)|H]]).
  - discriminate H.
  - rewrite Hj in Hr. injection Hr as <-. discriminate.
  - rewrite H in Hr. unfold fallbackResult in Hr.
    destruct (fallbackClassification clk ev); [|discriminate].
    injection Hr as <-. discriminate.
Qed.

Lemma postRefresh_built (req : Request) (st : State) :
  Forall built (cachedEvents st) ->
  Forall built (cachedEvents (snd (postRefresh clk openai sheets env req st))).
Proof.
  intros Hst. rewrite postRefresh_cases.
  destruct (rejected env req); [exact Hst|].
  destruct (sheets (fetches st) (SHEET_ID env) (rangeOf env)) as [e|values];
    [exact Hst|].
  pose proof (classifyAll_run clk openai (toClassifyOf env values) [] (withFetch st))
    as [Hc Hout].
  destruct (classifyAll clk openai (toClassifyOf env values) [] (withFetch st))
    as [[results|e] st1]; cbn [fst snd withLog withCache cachedEvents] in *.
  - destruct (Hout results eq_refl) as (new & -> & Hm & Hall).
    cbn [app]. apply Forall_forall. intros ce Hin. split.
    + assert (Hev : In (event ce) (toClassifyOf env values)).
      { rewrite <- Hm. now apply in_map. }
      rewrite toClassifyOf_firstn in Hev. apply In_firstn_In, in_map_iff in Hev.
      destruct Hev as (row & Hrow & _). now exists row.
    + rewrite Forall_forall in Hall. destruct (Hall ce Hin) as (st2 & Hrun).
      exact (classifyWithRetry_defined _ _ _ Hrun).
  - now rewrite Hc.
Qed.

(** X19.  From the start of the server and over any sequence of refresh
    requests, whatever the sheet service and the remote classifier answer,
    every event the server holds for [GET /api/events] is the event of a
    row of the sheet and has a classification that is not [undefined]. *)
Theorem served_events_built (reqs : list Request) :
  Forall built (getEvents (serve clk openai sheets env reqs initial)).
Proof.
  unfold getEvents.
  assert (H : forall st, Forall built (cachedEvents st) ->
                         Forall built (cachedEvents (serve clk openai sheets env reqs st))).
  { induction reqs as [|req rest IH]; intros st Hst; [exact Hst|].
    cbn [serve]. apply IH, postRefresh_built, Hst. }
  apply H. constructor.
Qed.

End Server.

(** A run of two requests that ends with two events held. *)
Example serve_sample :
  map (fun ce => title (event ce))
      (getEvents (serve clock0 alwaysNotFound sheetOfThree capTwo
                        [wrongSecret; withSecret] initial))
  = ["Resume workshop"; "Soccer tournament"].
Proof. vm_compute. reflexivity. Qed.

(** ** The tokens of an event *)

Lemma toLowerCase_app (a b : string) :
  JS.toLowerCase (a ++ b) = JS.toLowerCase a ++ JS.toLowerCase b.
Proof.
  induction a as [|c a IH]; [reflexivity|].
  cbn [append JS.toLowerCase]. now rewrite IH.
Qed.

Lemma pieces_nonempty (s : string) : JS.pieces s <> [].
Proof.
  destruct s as [|c r]; [discriminate|]. cbn [JS.pieces].
  destruct (JS.isLowerAlnum c); [destruct (JS.pieces r)|]; discriminate.
Qed.

(** A character that is no lower-case letter or digit cuts the text. *)
Lemma pieces_cut (a b : string) (c : ascii) :
  JS.isLowerAlnum c = false ->
  JS.pieces (a ++ String c b) = (JS.pieces a ++ JS.pieces b)%list.
Proof.
  intros Hc. induction a as [|x a IH].
  - cbn [append JS.pieces app]. now rewrite Hc.
  - cbn [append JS.pieces]. rewrite IH.
    destruct (JS.isLowerAlnum x); [|reflexivity].
    destruct (JS.pieces a) as [|w ws] eqn:Hp; [|reflexivity].
    now destruct (pieces_nonempty a).
Qed.

Lemma matchWords_cut (a b : string) (c : ascii) :
  JS.isLowerAlnum c = false ->
  JS.matchWords (a ++ String c b) = (JS.matchWords a ++ JS.matchWords b)%list.
Proof.
  intros Hc. unfold JS.matchWords. now rewrite pieces_cut, filter_app.
Qed.

Lemma matchWords_space (a b : string) :
  JS.matchWords (a ++ " " ++ b) = (JS.matchWords a ++ JS.matchWords b)%list.
Proof.
  apply (matchWords_cut a b " "%char). reflexivity.
Qed.

Lemma tokensOf_fields (ev : RawEvent) :
  tokensOf ev
  = (JS.matchWords (JS.toLowerCase (title ev))
     ++ JS.matchWords (JS.toLowerCase (description ev))
     ++ JS.matchWords (JS.toLowerCase (location ev)))%list.
Proof.
  unfold tokensOf. cbv zeta. rewrite !toLowerCase_app.
  change (JS.toLowerCase " ") with " ".
  now rewrite !matchWords_space.
Qed.

(** X20.  A word is a token of an event exactly when it is a word of its
    title, of its description or of its location, put in lower case: the
    space between the three fields joins no two words, and no other field
    of the event is read. *)
Theorem hasToken_fields (ev : RawEvent) (w : string) :
  hasToken ev w
  = wordIn (title ev) w || wordIn (description ev) w || wordIn (location ev) w.
Proof.
  unfold hasToken, wordIn. rewrite tokensOf_fields, !existsb_app.
  now rewrite orb_assoc.
Qed.

(** X21.  The fallback classification depends on the event through its
    date and, without regard to the case of letters, its title, description
    and location only: two events that agree on these are classified
    alike, whatever their organiser, link and time. *)
Theorem fallbackClassification_case (clk : Clock) (ev ev' : RawEvent) :
  JS.toLowerCase (title ev) = JS.toLowerCase (title ev') ->
  JS.toLowerCase (description ev) = JS.toLowerCase (description ev') ->
  JS.toLowerCase (location ev) = JS.toLowerCase (location ev') ->
  date ev = date ev' ->
  fallbackClassification clk ev = fallbackClassification clk ev'.
Proof.
  intros Ht Hd Hl Hdate.
  assert (Htok : tokensOf ev = tokensOf ev').
  { now rewrite !tokensOf_fields, Ht, Hd, Hl. }
  unfold fallbackClassification, hasToken. now rewrite Htok, Hdate.
Qed.

Lemma fallbackClassification_case_witness :
  fallbackClassification clock0 sampleEvent = fallbackClassification clock0 shoutedEvent.
Proof.
  apply (fallbackClassification_case clock0 sampleEvent shoutedEvent); reflexivity.
Defined.

(** ** The private key *)

Lemma string_pairs_ind (P : string -> Prop) :
  P EmptyString ->
  (forall c, P (String c EmptyString)) ->
  (forall c c2 r, P r -> P (String c2 r) -> P (String c (String c2 r))) ->
  forall s, P s.
Proof.
  intros H0 H1 H2 s.
  enough (H : P s /\ forall c, P (String c s)) by apply H.
  induction s as [|c2 r [IHr IHc]]; [now split|].
  split; [apply IHc|]. intros c. apply H2; [exact IHr|apply IHc].
Qed.

Lemma prefix_cons (a b : ascii) (s t : string) :
  String.prefix (String a s) (String b t) = Ascii.eqb a b && String.prefix s t.
Proof.
  cbn [String.prefix]. destruct (ascii_dec a b) as [->|Hne].
  - now rewrite Ascii.eqb_refl.
  - apply Ascii.eqb_neq in Hne. now rewrite Hne.
Qed.

Lemma prefix_empty (t : string) : String.prefix EmptyString t = true.
Proof. now destruct t. Qed.

Lemma includes_cons (c : ascii) (r t : string) :
  includes (String c r) t = String.prefix t (String c r) || includes r t.
Proof. reflexivity. Qed.

Lemma decodeNewlines_pair (c c2 : ascii) (r : string) :
  decodeNewlines (String c (String c2 r))
  = if Ascii.eqb c backslash && Ascii.eqb c2 "n"%char
    then String lineFeed (decodeNewlines r)
    else String c (decodeNewlines (String c2 r)).
Proof. reflexivity. Qed.

(** The text after a decoding starts with the letter n only when the text
    before it did. *)
Lemma decodeNewlines_head (r t : string) :
  String.prefix (String "n"%char t) (decodeNewlines r) = true ->
  exists r', r = String "n"%char r'.
Proof.
  destruct r as [|c [|c2 r]].
  - discriminate.
  - cbn [decodeNewlines]. rewrite prefix_cons. intros H.
    apply andb_true_iff in H as [H _]. apply Ascii.eqb_eq in H. subst c. now eexists.
  - rewrite decodeNewlines_pair.
    destruct (Ascii.eqb c backslash && Ascii.eqb c2 "n"%char) eqn:Hm;
      rewrite prefix_cons; intros H; apply andb_true_iff in H as [H _].
    + discriminate H.
    + apply Ascii.eqb_eq in H. subst c. now eexists.
Qed.

Lemma decodeNewlines_clean (k : string) :
  includes (decodeNewlines k) escapedNewline = false.
Proof.
  induction k as [|c|c c2 r IHr IHc] using string_pairs_ind.
  - reflexivity.
  - cbn [decodeNewlines]. rewrite includes_cons. unfold escapedNewline.
    rewrite prefix_cons. cbn. now rewrite andb_false_r.
  - rewrite decodeNewlines_pair.
    destruct (Ascii.eqb c backslash && Ascii.eqb c2 "n"%char) eqn:Hm;
      rewrite includes_cons.
    + rewrite IHr. unfold escapedNewline. rewrite prefix_cons. reflexivity.
    + rewrite IHc, orb_false_r. unfold escapedNewline. rewrite prefix_cons.
      destruct (Ascii.eqb backslash c) eqn:Hc; [|reflexivity].
      cbn [andb]. apply Ascii.eqb_eq in Hc. subst c.
      rewrite Ascii.eqb_refl in Hm. cbn [andb] in Hm.
      destruct (String.prefix "n" (decodeNewlines (String c2 r))) eqn:Hp; [|reflexivity].
      apply decodeNewlines_head in Hp as (r' & Hr). injection Hr as -> _.
      discriminate Hm.
Qed.

Lemma decodeNewlines_fixed (k : string) :
  includes k escapedNewline = false -> decodeNewlines k = k.
Proof.
  induction k as [|c r IH]; [reflexivity|].
  rewrite includes_cons. intros H. apply orb_false_iff in H as [Hp Hr].
  specialize (IH Hr). destruct r as [|c2 r]; [reflexivity|].
  rewrite decodeNewlines_pair.
  unfold escapedNewline in Hp. rewrite !prefix_cons, prefix_empty, andb_true_r in Hp.
  rewrite (Ascii.eqb_sym c backslash), (Ascii.eqb_sym c2 "n"%char), Hp.
  now rewrite IH.
Qed.

(** X22.  The key handed to the JWT client holds no backslash followed by
    the letter n, so decoding it once more changes nothing; and it is the
    text of [GOOGLE_PRIVATE_KEY] itself exactly when that text holds no
    such pair (the empty text when the variable is not set). *)
Theorem privateKey_decoded (GOOGLE_PRIVATE_KEY : option string) :
  includes (privateKey GOOGLE_PRIVATE_KEY) escapedNewline = false
  /\ decodeNewlines (privateKey GOOGLE_PRIVATE_KEY) = privateKey GOOGLE_PRIVATE_KEY
  /\ String.eqb (privateKey GOOGLE_PRIVATE_KEY) (orEmpty GOOGLE_PRIVATE_KEY)
     = negb (hasLiteralNewline GOOGLE_PRIVATE_KEY).
Proof.
  unfold privateKey, hasLiteralNewline.
  pose proof (decodeNewlines_clean (orEmpty GOOGLE_PRIVATE_KEY)) as Hc.
  split; [exact Hc|]. split; [now apply decodeNewlines_fixed|].
  destruct (includes (orEmpty GOOGLE_PRIVATE_KEY) escapedNewline) eqn:Hi; cbn [negb].
  - apply String.eqb_neq. intros Heq. rewrite Heq in Hc. congruence.
  - apply String.eqb_eq. now apply decodeNewlines_fixed.
Qed.

(** X23.  The diagnostic script prints that the decoded key contains
    newlines exactly when the key has a literal backslash-n or holds a line
    feed already. *)
Theorem decodedContainsNewlines_iff (GOOGLE_PRIVATE_KEY : option string) :
  decodedContainsNewlines GOOGLE_PRIVATE_KEY
  = hasLiteralNewline GOOGLE_PRIVATE_KEY
    || includes (orEmpty GOOGLE_PRIVATE_KEY) newline.
Proof.
  unfold decodedContainsNewlines, hasLiteralNewline.
  induction (orEmpty GOOGLE_PRIVATE_KEY) as [|c|c c2 r IHr IHc] using string_pairs_ind.
  - reflexivity.
  - cbn [decodeNewlines]. rewrite !includes_cons. unfold escapedNewline, newline.
    rewrite !prefix_cons. cbn [includes String.prefix].
    now rewrite andb_false_r.
  - rewrite decodeNewlines_pair.
    rewrite (includes_cons c (String c2 r) escapedNewline).
    rewrite (includes_cons c (String c2 r) newline).
    unfold escapedNewline at 1. unfold newline at 2.
    rewrite !prefix_cons, !prefix_empty, !andb_true_r.
    rewrite (Ascii.eqb_sym backslash c), (Ascii.eqb_sym "n"%char c2).
    destruct (Ascii.eqb c backslash && Ascii.eqb c2 "n"%char) eqn:Hm.
    + rewrite includes_cons. unfold newline at 1.
      rewrite prefix_cons, prefix_empty. reflexivity.
    + rewrite includes_cons, IHc. unfold newline at 1.
      rewrite prefix_cons, prefix_empty, andb_true_r.
      change (ascii_of_nat 10) with lineFeed.
      destruct (Ascii.eqb lineFeed c); cbn [orb]; [now rewrite orb_true_r|reflexivity].
Qed.

(** ** The prompt and the clock of twelve hours *)

Lemma trimEnd_keep (c : ascii) (r : string) :
  JS.isWhiteSpace c = false -> JS.trimEnd (String c r) = String c (JS.trimEnd r).
Proof.
  intros Hc. cbn [JS.trimEnd]. rewrite Hc. now destruct (JS.trimEnd r).
Qed.

Lemma trimEnd_app (a b : string) :
  JS.trimEnd b <> EmptyString -> JS.trimEnd (a ++ b) = a ++ JS.trimEnd b.
Proof.
  intros Hb. induction a as [|c a IH]; [reflexivity|].
  cbn [append JS.trimEnd]. rewrite IH.
  destruct (a ++ JS.trimEnd b) eqn:Hab; [|reflexivity].
  destruct a; [|discriminate]. now destruct Hb.
Qed.

Lemma trimEnd_app_nonempty (a b : string) :
  JS.trimEnd b <> EmptyString -> JS.trimEnd (a ++ b) <> EmptyString.
Proof.
  intros Hb. rewrite trimEnd_app by exact Hb.
  destruct a; [exact Hb|discriminate].
Qed.

Lemma trimEnd_URL (t : string) : JS.trimEnd ("URL: " ++ t) = "URL:" ++ JS.trimEnd (" " ++ t).
Proof.
  cbn [append]. now rewrite !trimEnd_keep by reflexivity.
Qed.

Lemma trimEnd_URL_nonempty (t : string) : JS.trimEnd ("URL: " ++ t) <> EmptyString.
Proof. rewrite trimEnd_URL. discriminate. Qed.

(** X24.  The prompt is the fixed instructions followed by the six lines
    of the event, each field as it is; the trimming of the prompt touches
    only what follows [URL:] on the last line. *)
Theorem promptOf_lines (ev : RawEvent) :
  promptOf ev
  = instructions
    ++ "Title: " ++ title ev ++ newline
    ++ "Description: " ++ description ev ++ newline
    ++ "When: " ++ date ev ++ " " ++ time ev ++ newline
    ++ "Where: " ++ location ev ++ newline
    ++ "Org: " ++ org ev ++ newline
    ++ "URL:" ++ JS.trimEnd (" " ++ url ev ++ newline).
Proof.
  unfold promptOf, JS.trim.
  match goal with
  | |- JS.trimEnd (JS.trimStart (newline ++ ?x)) = _ =>
      change (JS.trimStart (newline ++ x)) with x
  end.
  repeat rewrite trimEnd_app
    by (repeat first [apply trimEnd_URL_nonempty | apply trimEnd_app_nonempty]).
  rewrite trimEnd_URL. reflexivity.
Qed.

(** X25.  For an hour of the clock of twelve hours, 1 to 12, the meridiem
    gives the hour of the day: "am" the hour modulo 12, "pm" twelve more,
    so 12am is 0 and 12pm is 12. *)
Theorem meridiem_twelve_hour (hh : Z) :
  1 <= hh <= 12 ->
  meridiem (Some "am") hh = hh mod 12
  /\ meridiem (Some "pm") hh = hh mod 12 + 12.
Proof.
  intros H. unfold meridiem. cbn [merIs String.eqb Ascii.eqb Bool.eqb andb].
  destruct (Z.eqb_spec hh 12) as [->|Hne]; [split; reflexivity|].
  replace (hh <? 12) with true by (symmetry; apply Z.ltb_lt; lia).
  rewrite Z.mod_small by lia.
  split; [reflexivity|].
  destruct (Z.eqb_spec (hh + 12) 12); [lia|reflexivity].
Qed.

Lemma meridiem_twelve_hour_witness :
  meridiem (Some "am") 12 = 12 mod 12 /\ meridiem (Some "pm") 12 = 12 mod 12 + 12.
Proof.
  apply (meridiem_twelve_hour 12). lia.
Defined.
